(** * nose_xunitmp: the multiprocess xunit report plugin

    A shallow embedding of [nose_xunitmp.py] (class [XunitMP]) and the
    properties of its report, its outcome handlers and its shared store.

    The plugin keeps its results in two objects hosted by a
    [multiprocessing.Manager]: a list of XML fragments and a dict of
    counters.  Every access to them from a plugin instance is one call on a
    proxy, served atomically by the manager process.  The handlers are
    therefore written as programs over these proxy calls ([prog]); the same
    program is run alone ([run_prog]) or interleaved with the programs of
    other worker processes ([run_schedule]). *)

From Stdlib Require Import ZArith NArith Floats DecimalString Ascii String List.
From stdpp Require Import gmap strings list.

Set Default Proof Using "Type".
Set Warnings "-register-all".
Local Open Scope list_scope.

(** ** Python values *)

Module Py.

(** A Python [str] is a sequence of Unicode code points. *)
Abbreviation text := (list N).

(** The text of an ASCII literal of the source. *)
Definition u (s : string) : text :=
  (fun a => N_of_ascii a) <$> list_ascii_of_string s.
Arguments u _%_string : simpl never.

(** The double quote, which the templates of the source contain. *)
Definition dq : text := [34%N].
Arguments dq : simpl never.

(** The values held by the counters dict: Python ints (unbounded) and,
    once [report] has stored the encoding there, a [str]. *)
Inductive pyval :=
| VInt (n : Z)
| VStr (s : text).

Inductive exn :=
| KeyError (k : string)
| TypeError
| ValueError
| IndexError
| AttributeError (attr : string)
| LookupError (name : text)
| UnicodeEncodeError
| OverflowError
| OSError
| RemoteError.

Abbreviation result A := (exn + A)%type.

(** A computation that may raise, followed by another. *)
#[export] Instance result_ret : MRet (sum exn) := fun A a => inr a.
#[export] Instance result_bind : MBind (sum exn) :=
  fun A B f r =>
    match r with
    | inl e => inl e
    | inr a => f a
    end.

(** [str(n)] and [%d] of an int: decimal digits with a leading minus sign. *)
Definition str_of_int (z : Z) : text := u (NilZero.string_of_int (Z.to_int z)).

(** [a + b] : int addition, str concatenation, [TypeError] when mixed. *)
Definition py_add (a b : pyval) : result pyval :=
  match a, b with
  | VInt x, VInt y => inr (VInt (x + y))
  | VStr x, VStr y => inr (VStr (x ++ y))
  | _, _ => inl TypeError
  end.

(** [%(k)d] : only a number can be formatted. *)
Definition fmt_d (v : pyval) : result text :=
  match v with
  | VInt n => inr (str_of_int n)
  | VStr _ => inl TypeError
  end.

(** [%(k)s] : [str(v)]. *)
Definition fmt_s (v : pyval) : text :=
  match v with
  | VInt n => str_of_int n
  | VStr s => s
  end.

(** [s * n] on a str. *)
Definition py_mul (s : text) (n : nat) : text := concat (replicate n s).
Arguments py_mul : simpl never.

(** [l[0]] and [l[-1]] on a list. *)
Definition index_first {A} (l : list A) : result A :=
  match l with
  | [] => inl IndexError
  | x :: _ => inr x
  end.

Definition index_last {A} (l : list A) : result A :=
  match last l with
  | None => inl IndexError
  | Some x => inr x
  end.

(** Classes, with their direct bases; a class is identified by its
    qualified name. *)
Inductive pyclass := PyClass (name : string) (bases : list pyclass).

Definition class_name (c : pyclass) : string :=
  match c with PyClass n _ => n end.

(** [issubclass(c, d)]: [d] is [c] or an ancestor of [c]. *)
Fixpoint issubclass (c d : pyclass) : bool :=
  match c with
  | PyClass n bs =>
      bool_decide (n = class_name d) || existsb (fun b => issubclass b d) bs
  end.

Definition BaseException : pyclass := PyClass "BaseException" [].
Definition Exception : pyclass := PyClass "Exception" [BaseException].
(** [nose.exc.SkipTest] *)
Definition SkipTest : pyclass := PyClass "SkipTest" [Exception].

(** *** Codecs

    A character codec encodes code point by code point; a code point it
    cannot represent has no encoding.  Every codec encodes the question
    mark, which is what the [replace] error handler substitutes. *)
Record codec := Codec {
  encode_char : N -> option (list Byte.byte);
  qmark : list Byte.byte;
  qmark_ok : encode_char 63%N = Some qmark
}.

Inductive errors_mode := Strict | Replace.

Fixpoint encode (c : codec) (e : errors_mode) (t : text) : result (list Byte.byte) :=
  match t with
  | [] => inr []
  | ch :: rest =>
      match encode_char c ch with
      | Some bs =>
          match encode c e rest with
          | inr out => inr (bs ++ out)
          | inl err => inl err
          end
      | None =>
          match e with
          | Strict => inl UnicodeEncodeError
          | Replace =>
              match encode c e rest with
              | inr out => inr (qmark c ++ out)
              | inl err => inl err
              end
          end
      end
  end.

Definition byte_of (n : N) : list Byte.byte :=
  match Byte.of_N n with
  | Some b => [b]
  | None => []
  end.

(** The [ascii] codec: code points below 128. *)
Definition ascii_encode_char (n : N) : option (list Byte.byte) :=
  if (n <? 128)%N then Some (byte_of n) else None.

(** The [utf-8] codec: every scalar value; the surrogates U+D800..U+DFFF
    and anything above U+10FFFF have no encoding. *)
Definition utf8_encode_char (n : N) : option (list Byte.byte) :=
  if (n <? 128)%N then Some (byte_of n)
  else if (n <? 2048)%N then
    Some (byte_of (192 + n / 64) ++ byte_of (128 + n mod 64))%N
  else if (n <? 65536)%N then
    if ((55296 <=? n) && (n <=? 57343))%N then None
    else Some (byte_of (224 + n / 4096) ++ byte_of (128 + (n / 64) mod 64)
               ++ byte_of (128 + n mod 64))%N
  else if (n <? 1114112)%N then
    Some (byte_of (240 + n / 262144) ++ byte_of (128 + (n / 4096) mod 64)
          ++ byte_of (128 + (n / 64) mod 64) ++ byte_of (128 + n mod 64))%N
  else None.

Definition ascii_codec : codec := Codec ascii_encode_char _ eq_refl.
Definition utf8_codec : codec := Codec utf8_encode_char _ eq_refl.

(** *** Dates

    The broken-down local time that [datetime.fromtimestamp] returns. *)
Record datetime := DateTime {
  year : N; month : N; day : N; hour : N; minute : N; second : N;
  microsecond : N
}.

(** The [LC_TIME] locale: what the conversions [%x] and [%X] of
    [strftime] stand for, the date and the time representation of the
    locale. *)
Record locale := Locale {
  date_repr : datetime -> text;
  time_repr : datetime -> text
}.

Definition dec (n : N) : text := u (NilZero.string_of_uint (N.to_uint n)).

(** Two digits, zero padded. *)
Definition pad2 (n : N) : text :=
  if (n <? 10)%N then u "0" ++ dec n else dec n.

(** hour:minute:second, two digits each. *)
Definition hms (dt : datetime) : text :=
  pad2 (hour dt) ++ u ":" ++ pad2 (minute dt) ++ u ":" ++ pad2 (second dt).

(** The C locale: the date is month/day/year, two digits each. *)
Definition C_locale : locale :=
  Locale (fun dt => pad2 (month dt) ++ u "/" ++ pad2 (day dt) ++ u "/"
                    ++ pad2 (year dt mod 100))
         hms.

(** The German locale: the date is day.month.year, the year in full. *)
Definition de_DE_locale : locale :=
  Locale (fun dt => pad2 (day dt) ++ u "." ++ pad2 (month dt) ++ u "."
                    ++ dec (year dt))
         hms.

(** A format of [strftime], read: characters that stand for themselves,
    and the conversions [%x] and [%X]. *)
Inductive fmt_item :=
| Lit (c : ascii)
| Conv_x
| Conv_X.

(** Reading a format string.  [%%] is a percent sign; a conversion other
    than [%x] and [%X] is not modelled. *)
Fixpoint read_format (fmt : string) : option (list fmt_item) :=
  match fmt with
  | EmptyString => Some []
  | String a rest =>
      if Ascii.eqb a "%" then
        match rest with
        | EmptyString => None
        | String c rest' =>
            item ← (if Ascii.eqb c "x" then Some Conv_x
                    else if Ascii.eqb c "X" then Some Conv_X
                    else if Ascii.eqb c "%" then Some (Lit "%")
                    else None);
            items ← read_format rest';
            Some (item :: items)
        end
      else items ← read_format rest; Some (Lit a :: items)
  end.

(** [dt.strftime(fmt)] in the locale [loc]. *)
Definition strftime (loc : locale) (fmt : list fmt_item) (dt : datetime) : text :=
  flat_map (fun item =>
              match item with
              | Lit c => [N_of_ascii c]
              | Conv_x => date_repr loc dt
              | Conv_X => time_repr loc dt
              end) fmt.

(** The format ['%x %X']. *)
Definition fmt_x_X : list fmt_item := [Conv_x; Lit " "; Conv_X].

Arguments str_of_int : simpl never.
Arguments strftime : simpl never.
Arguments encode : simpl never.

End Py.
Export Py.

(** ** The shared store and the programs over it *)

Module Shared.

(** A proxy: the identity of an object hosted by the manager process. *)
Abbreviation ref := nat.

(** What a process can see and change outside itself: the objects the
    manager hosts, the clock, the files, the status stream. *)
Record world := World {
  w_lists : gmap nat (list text);
  w_dicts : gmap nat (gmap string pyval);
  w_next : nat;
  w_clock : nat -> float;
  w_ticks : nat;
  w_files : gmap text (list Byte.byte);
  w_open : gset text;
  w_stream : list text
}.

Definition set_lists (f : gmap nat (list text) -> gmap nat (list text)) (w : world) : world :=
  World (f (w_lists w)) (w_dicts w) (w_next w) (w_clock w) (w_ticks w)
        (w_files w) (w_open w) (w_stream w).
Definition set_dicts (f : gmap nat (gmap string pyval) -> gmap nat (gmap string pyval))
    (w : world) : world :=
  World (w_lists w) (f (w_dicts w)) (w_next w) (w_clock w) (w_ticks w)
        (w_files w) (w_open w) (w_stream w).
Definition set_next (n : nat) (w : world) : world :=
  World (w_lists w) (w_dicts w) n (w_clock w) (w_ticks w)
        (w_files w) (w_open w) (w_stream w).
Definition set_ticks (n : nat) (w : world) : world :=
  World (w_lists w) (w_dicts w) (w_next w) (w_clock w) n
        (w_files w) (w_open w) (w_stream w).
Definition set_files (f : gmap text (list Byte.byte) -> gmap text (list Byte.byte))
    (w : world) : world :=
  World (w_lists w) (w_dicts w) (w_next w) (w_clock w) (w_ticks w)
        (f (w_files w)) (w_open w) (w_stream w).
Definition set_open (f : gset text -> gset text) (w : world) : world :=
  World (w_lists w) (w_dicts w) (w_next w) (w_clock w) (w_ticks w)
        (w_files w) (f (w_open w)) (w_stream w).
Definition set_stream (f : list text -> list text) (w : world) : world :=
  World (w_lists w) (w_dicts w) (w_next w) (w_clock w) (w_ticks w)
        (w_files w) (w_open w) (f (w_stream w)).

(** One atomic interaction of a process with the world.  The first four
    are calls on the proxies of [manager.list()] and [manager.dict()]. *)
Inductive op : Type -> Type :=
| NewList : op ref                                  (* manager.list() *)
| NewDict (init : gmap string pyval) : op ref       (* manager.dict(init) *)
| DictGet (d : ref) (k : string) : op pyval         (* d[k] *)
| DictSet (d : ref) (k : string) (v : pyval) : op unit   (* d[k] = v *)
| ListAppend (l : ref) (x : text) : op unit         (* l.append(x) *)
| ListIter (l : ref) : op (list text)               (* [x for x in l], read
                                                       with no writer left *)
| Time : op float                                   (* time() *)
| FileOpen (path : text) : op unit                  (* open(path, 'wb') *)
| FileWrite (path : text) (bs : list Byte.byte) : op unit
| FileClose (path : text) : op unit
| Writeln (line : text) : op unit.                  (* stream.writeln(line) *)

Definition exec_op {X} (o : op X) (w : world) : world * result X :=
  match o in op X return world * result X with
  | NewList =>
      let r := w_next w in
      (set_next (S r) (set_lists (insert r []) w), inr r)
  | NewDict init =>
      let r := w_next w in
      (set_next (S r) (set_dicts (insert r init) w), inr r)
  | DictGet d k =>
      match w_dicts w !! d with
      | None => (w, inl RemoteError)
      | Some m =>
          match m !! k with
          | None => (w, inl (KeyError k))
          | Some v => (w, inr v)
          end
      end
  | DictSet d k v =>
      match w_dicts w !! d with
      | None => (w, inl RemoteError)
      | Some m => (set_dicts (insert d (<[k:=v]> m)) w, inr tt)
      end
  | ListAppend l x =>
      match w_lists w !! l with
      | None => (w, inl RemoteError)
      | Some xs => (set_lists (insert l (xs ++ [x])) w, inr tt)
      end
  | ListIter l =>
      match w_lists w !! l with
      | None => (w, inl RemoteError)
      | Some xs => (w, inr xs)
      end
  | Time => (set_ticks (S (w_ticks w)) w, inr (w_clock w (w_ticks w)))
  | FileOpen path =>
      (set_open (union {[path]}) (set_files (insert path []) w), inr tt)
  | FileWrite path bs =>
      if bool_decide (path ∈ w_open w) then
        (set_files (insert path (default [] (w_files w !! path) ++ bs)) w, inr tt)
      else (w, inl ValueError)
  | FileClose path => (set_open (fun s => s ∖ {[path]}) w, inr tt)
  | Writeln line => (set_stream (fun s => s ++ [line]) w, inr tt)
  end.

(** A program: a tree of proxy calls.  Whatever a process computes between
    two calls is local to it and is part of the continuation. *)
Inductive prog (A : Type) : Type :=
| Ret (a : A)
| Raise (e : exn)
| Do {X : Type} (o : op X) (k : X -> prog A).
Arguments Ret {A} a.
Arguments Raise {A} e.
Arguments Do {A X} o k.

Fixpoint bind {A B} (p : prog A) (f : A -> prog B) : prog B :=
  match p with
  | Ret a => f a
  | Raise e => Raise e
  | Do o k => Do o (fun x => bind (k x) f)
  end.

#[export] Instance prog_ret : MRet prog := @Ret.
#[export] Instance prog_bind : MBind prog := fun A B f p => bind p f.

Definition call {X} (o : op X) : prog X := Do o Ret.

(** A local computation that may raise. *)
Definition lift {A} (r : result A) : prog A :=
  match r with
  | inl e => Raise e
  | inr a => Ret a
  end.

(** [self.attr] of an attribute that may be missing. *)
Definition attr {A} (name : string) (o : option A) : prog A :=
  match o with
  | Some a => Ret a
  | None => Raise (AttributeError name)
  end.

(** A process running alone to its end. *)
Fixpoint run_prog {A} (p : prog A) (w : world) : world * result A :=
  match p with
  | Ret a => (w, inr a)
  | Raise e => (w, inl e)
  | Do o k =>
      match exec_op o w with
      | (w', inr x) => run_prog (k x) w'
      | (w', inl e) => (w', inl e)
      end
  end.

(** One proxy call of a process; a finished process does not step. *)
Definition step_prog {A} (p : prog A) (w : world) : option (world * prog A) :=
  match p with
  | Ret _ | Raise _ => None
  | Do o k =>
      match exec_op o w with
      | (w', inr x) => Some (w', k x)
      | (w', inl e) => Some (w', Raise e)
      end
  end.

Definition finished {A} (p : prog A) : bool :=
  match p with
  | Do _ _ => false
  | _ => true
  end.

(** Several processes: the scheduler picks the process that makes the next
    call.  A schedule is the sequence of its picks. *)
Definition sched_step {A} (i : nat) (c : world * list (prog A))
    : option (world * list (prog A)) :=
  match c.2 !! i with
  | None => None
  | Some p =>
      match step_prog p c.1 with
      | None => None
      | Some (w', p') => Some (w', <[i:=p']> c.2)
      end
  end.

Fixpoint run_schedule {A} (s : list nat) (c : world * list (prog A))
    : option (world * list (prog A)) :=
  match s with
  | [] => Some c
  | i :: s' =>
      match sched_step i c with
      | None => None
      | Some c' => run_schedule s' c'
      end
  end.

(** All processes have finished: nothing writes to the store any more. *)
Definition quiesced {A} (pool : list (prog A)) : bool := forallb finished pool.

End Shared.
Export Shared.

(** ** The plugin *)

Module XunitMP.

(** What the handlers are called with: the test ([test.id()]) and, for a
    failure or an error, [sys.exc_info()]. *)
Record test := Test { test_id : text }.
Record exc_info := ExcInfo {
  exc_type : pyclass;
  exc_value : text;
  exc_tb : text
}.

(** The nose configuration object, pickled to every worker process.  The
    plugin publishes its proxies in the attribute [_nose_xunitmp_state]. *)
Record nose_config := Config {
  verbosity : Z;
  _nose_xunitmp_state : option (ref * ref)
}.

(** The parsed command line: the switch that enables the plugin (absent
    when the option was never declared) and [--xunitmp-file]. *)
Record options := Options {
  enable_plugin_xunitmp : option bool;
  xunitmp_file : text
}.

(** One plugin instance; every process has its own.  [None] stands for an
    attribute that was never set. *)
Record plugin := Plugin {
  enabled : bool;
  encoding : text;
  config : option nose_config;
  errorlist : option ref;
  stats : option ref;
  error_report_filename : option text;
  error_report_file : option text;
  _timer : option float
}.

(** The class attributes: [Plugin.enabled = False],
    [Xunit.encoding = 'UTF-8'], [error_report_filename = None],
    [error_report_file = None]. *)
Definition new_plugin : plugin :=
  Plugin false (u "UTF-8") None None None None None None.

Definition with_timer (t : option float) (self : plugin) : plugin :=
  Plugin (enabled self) (encoding self) (config self) (errorlist self)
         (stats self) (error_report_filename self) (error_report_file self) t.

(** What the plugin imports from nose and from the Python runtime and does
    not define itself. *)
Class Env := {
  format_exception : exc_info -> text -> text;
  id_split : text -> result (list text);      (* may raise ValueError *)
  nice_classname : pyclass -> text;
  exc_message : exc_info -> text;
  escape_cdata : text -> text;
  quoteattr : text -> text;                   (* Xunit._quoteattr *)
  getCapturedStdout : plugin -> text;       (* Xunit._getCapturedStdout *)
  getCapturedStderr : plugin -> text;       (* Xunit._getCapturedStderr *)
  fmt_3f : float -> text;                    (* "%.3f" % x *)
  fromtimestamp : float -> result datetime;  (* datetime.fromtimestamp *)
  lc_time : locale;                          (* the LC_TIME locale in force *)
  codecs_lookup : text -> option codec       (* codecs.lookup *)
}.

(** [nose.pyversion.force_unicode] is [str(s)]: on a [str] the identity. *)
Definition force_unicode (s : text) : text := s.

Section Plugin.
Context `{Env}.

(** [Plugin.configure] of nose: the plugin is enabled by its switch. *)
Definition Plugin_configure (self : plugin) (opts : options) : plugin :=
  match enable_plugin_xunitmp opts with
  | Some b =>
      Plugin b (encoding self) (config self) (errorlist self) (stats self)
             (error_report_filename self) (error_report_file self) (_timer self)
  | None => self
  end.

(** [XunitMP.configure]: returns the plugin and the configuration object,
    which it changes when it publishes the proxies. *)
Definition configure (self : plugin) (opts : options) (conf : nose_config)
    : prog (plugin * nose_config) :=
  let self := Plugin_configure self opts in
  if enabled self then
    match _nose_xunitmp_state conf with
    | None =>
        l ← call NewList;
        d ← call (NewDict (<["errors":=VInt 0]> (<["failures":=VInt 0]>
                           (<["passes":=VInt 0]> (<["skipped":=VInt 0]> ∅)))));
        let conf' := Config (verbosity conf) (Some (l, d)) in
        mret (Plugin (enabled self) (encoding self) (Some conf') (Some l) (Some d)
                     (Some (xunitmp_file opts)) (error_report_file self)
                     (_timer self), conf')
    | Some (l, d) =>
        mret (Plugin (enabled self) (encoding self) (Some conf) (Some l) (Some d)
                     (Some (xunitmp_file opts)) (error_report_file self)
                     (_timer self), conf)
    end
  else
    mret (Plugin (enabled self) (encoding self) (Some conf) (errorlist self)
                 (stats self) (error_report_filename self)
                 (error_report_file self) (_timer self), conf).

(** [codecs.open(path, 'w', encoding, 'replace')]: the file is opened
    first, then the codec is looked up. *)
Definition codecs_open (path : option text) (enc : text) : prog (text * codec) :=
  match path with
  | None => Raise TypeError
  | Some p =>
      call (FileOpen p);;
      match codecs_lookup enc with
      | Some c => mret (p, c)
      | None => call (FileClose p);; Raise (LookupError enc)
      end
  end.

(** [f.write(s)] on the file opened with the error handler [replace]. *)
Definition file_write (f : text * codec) (s : text) : prog unit :=
  bs ← lift (encode f.2 Replace s);
  call (FileWrite f.1 bs).

(** [XunitMP.report] *)
Definition report (self : plugin) : prog plugin :=
  f ← codecs_open (error_report_filename self) (encoding self);
  let self := Plugin (enabled self) (encoding self) (config self)
                     (errorlist self) (stats self) (error_report_filename self)
                     (Some f.1) (_timer self) in
  d ← attr "stats" (stats self);
  call (DictSet d "encoding" (VStr (encoding self)));;
  e ← call (DictGet d "errors");
  fl ← call (DictGet d "failures");
  ef ← lift (py_add e fl);
  p ← call (DictGet d "passes");
  efp ← lift (py_add ef p);
  s ← call (DictGet d "skipped");
  total ← lift (py_add efp s);
  call (DictSet d "total" total);;
  v_encoding ← call (DictGet d "encoding");
  v_total ← call (DictGet d "total");
  t_total ← lift (fmt_d v_total);
  v_errors ← call (DictGet d "errors");
  t_errors ← lift (fmt_d v_errors);
  v_failures ← call (DictGet d "failures");
  t_failures ← lift (fmt_d v_failures);
  v_skipped ← call (DictGet d "skipped");
  t_skipped ← lift (fmt_d v_skipped);
  file_write f
    (u "<?xml version=" ++ dq ++ u "1.0" ++ dq ++ u " encoding=" ++ dq
     ++ fmt_s v_encoding ++ dq ++ u "?>"
     ++ u "<testsuite name=" ++ dq ++ u "nosetests" ++ dq
     ++ u " tests=" ++ dq ++ t_total ++ dq ++ u " "
     ++ u "errors=" ++ dq ++ t_errors ++ dq
     ++ u " failures=" ++ dq ++ t_failures ++ dq ++ u " "
     ++ u "skip=" ++ dq ++ t_skipped ++ dq ++ u ">");;
  l ← attr "errorlist" (errorlist self);
  errors ← call (ListIter l);
  file_write f (concat (force_unicode <$> errors));;
  file_write f (u "</testsuite>");;
  call (FileClose f.1);;
  conf ← attr "config" (config self);
  (if (1 <? verbosity conf)%Z then
     call (Writeln (py_mul (u "-") 70));;
     call (Writeln (u "XML: " ++ f.1))
   else mret tt);;
  mret self.

(** [Xunit._timeTaken], inherited from nose: the time since the timer was
    started, and [0.0] when there is no timer. *)
Definition _timeTaken (self : plugin) : prog float :=
  match _timer self with
  | Some t0 => now ← call Time; mret (now - t0)%float
  | None => mret 0%float
  end.

(** [d[k] += 1] on a dict proxy: [d.__getitem__(k)], the addition in the
    calling process, then [d.__setitem__(k, _)]. *)
Definition iadd_item (d : ref) (k : string) : prog unit :=
  v ← call (DictGet d k);
  v' ← lift (py_add v (VInt 1));
  call (DictSet d k v').

(** The start of the test: the timer, or the time now when there is none. *)
Definition start_of_test (self : plugin) : prog float :=
  match _timer self with
  | Some t0 => mret t0
  | None => call Time
  end.

(** [XunitMP.addError].  The counter is written first; the test id is
    split and the times are converted afterwards, while the argument of
    [append] is put together, and either may raise. *)
Definition addError (self : plugin) (t : test) (err : exc_info) : prog unit :=
  taken ← _timeTaken self;
  type ← (if issubclass (exc_type err) SkipTest then
            d ← attr "stats" (stats self);
            iadd_item d "skipped";;
            mret (u "skipped")
          else
            d ← attr "stats" (stats self);
            iadd_item d "errors";;
            mret (u "error"));
  let tb := format_exception err (encoding self) in
  let id := test_id t in
  started ← start_of_test self;
  let ended := (started + taken)%float in
  l ← attr "errorlist" (errorlist self);
  parts ← lift (id_split id);
  cls ← lift (index_first parts);
  parts' ← lift (id_split id);
  name ← lift (index_last parts');
  dt_started ← lift (fromtimestamp started);
  dt_ended ← lift (fromtimestamp ended);
  call (ListAppend l
    (u "<testcase classname=" ++ quoteattr cls ++ u " name=" ++ quoteattr name
     ++ u " time=" ++ dq ++ fmt_3f taken ++ dq
     ++ u " started=" ++ dq ++ strftime lc_time fmt_x_X dt_started ++ dq
     ++ u " ended=" ++ dq ++ strftime lc_time fmt_x_X dt_ended ++ dq
     ++ u ">"
     ++ u "<" ++ type ++ u " type=" ++ quoteattr (nice_classname (exc_type err))
     ++ u " message=" ++ quoteattr (exc_message err)
     ++ u "><![CDATA[" ++ escape_cdata tb ++ u "]]>"
     ++ u "</" ++ type ++ u ">"
     ++ getCapturedStdout self ++ getCapturedStderr self ++ u "</testcase>")).

(** [XunitMP.addFailure] *)
Definition addFailure (self : plugin) (t : test) (err : exc_info) : prog unit :=
  taken ← _timeTaken self;
  let tb := format_exception err (encoding self) in
  d ← attr "stats" (stats self);
  iadd_item d "failures";;
  let id := test_id t in
  started ← start_of_test self;
  let ended := (started + taken)%float in
  l ← attr "errorlist" (errorlist self);
  parts ← lift (id_split id);
  cls ← lift (index_first parts);
  parts' ← lift (id_split id);
  name ← lift (index_last parts');
  dt_started ← lift (fromtimestamp started);
  dt_ended ← lift (fromtimestamp ended);
  call (ListAppend l
    (u "<testcase classname=" ++ quoteattr cls ++ u " name=" ++ quoteattr name
     ++ u " time=" ++ dq ++ fmt_3f taken ++ dq
     ++ u " started=" ++ dq ++ strftime lc_time fmt_x_X dt_started ++ dq
     ++ u " ended=" ++ dq ++ strftime lc_time fmt_x_X dt_ended ++ dq
     ++ u ">"
     ++ u "<failure type=" ++ quoteattr (nice_classname (exc_type err))
     ++ u " message=" ++ quoteattr (exc_message err)
     ++ u "><![CDATA[" ++ escape_cdata tb ++ u "]]>"
     ++ u "</failure>"
     ++ getCapturedStdout self ++ getCapturedStderr self ++ u "</testcase>")).

(** [XunitMP.addSuccess] *)
Definition addSuccess (self : plugin) (t : test) : prog unit :=
  taken ← _timeTaken self;
  d ← attr "stats" (stats self);
  iadd_item d "passes";;
  let id := test_id t in
  started ← start_of_test self;
  let ended := (started + taken)%float in
  l ← attr "errorlist" (errorlist self);
  parts ← lift (id_split id);
  cls ← lift (index_first parts);
  parts' ← lift (id_split id);
  name ← lift (index_last parts');
  dt_started ← lift (fromtimestamp started);
  dt_ended ← lift (fromtimestamp ended);
  call (ListAppend l
    (u "<testcase classname=" ++ quoteattr cls ++ u " name=" ++ quoteattr name
     ++ u " "
     ++ u "time=" ++ dq ++ fmt_3f taken ++ dq
     ++ u " started=" ++ dq ++ strftime lc_time fmt_x_X dt_started ++ dq
     ++ u " ended=" ++ dq ++ strftime lc_time fmt_x_X dt_ended ++ dq
     ++ u ">"
     ++ getCapturedStdout self ++ getCapturedStderr self ++ u "</testcase>")).

(** The result of one test, as the execution engine reports it to the
    plugin, with the timer the plugin holds at that moment. *)
Inductive outcome :=
| Success (t : test)
| Failure (t : test) (err : exc_info)
| Error (t : test) (err : exc_info).

Definition handle (self : plugin) (ev : option float * outcome) : prog unit :=
  let self := with_timer ev.1 self in
  match ev.2 with
  | Success t => addSuccess self t
  | Failure t err => addFailure self t err
  | Error t err => addError self t err
  end.

(** A worker process runs its tests one after the other. *)
Fixpoint worker (self : plugin) (evs : list (option float * outcome)) : prog unit :=
  match evs with
  | [] => mret tt
  | ev :: evs' => handle self ev;; worker self evs'
  end.

End Plugin.

End XunitMP.
Export XunitMP.

(** ** The environment of a run: nose 1.3.7 on CPython 3 and Linux, the
    time zone UTC *)

Module Sample.

(** [s.rsplit(".", 1)]: the text before the last dot, if there is a dot,
    and the text after it. *)
Fixpoint rsplit_dot (s : text) : option text * text :=
  match s with
  | [] => (None, [])
  | c :: rest =>
      match rsplit_dot rest with
      | (Some head, tail) => (Some (c :: head), tail)
      | (None, tail) => if (c =? 46)%N then (Some [], tail) else (None, c :: tail)
      end
  end.

Definition rsplit1 (s : text) : list text :=
  match rsplit_dot s with
  | (Some head, tail) => [head; tail]
  | (None, tail) => [tail]
  end.

(** The text before the first [c], and the text from that [c] on. *)
Fixpoint break_at (c : N) (s : text) : option (text * text) :=
  match s with
  | [] => None
  | x :: rest =>
      if (x =? c)%N then Some ([], s)
      else '(a, b) ← break_at c rest; Some (x :: a, b)
  end.

(** [TEST_ID.match(idval).groups()] for the pattern [^(.*?)(\(.*\))$] of
    nose: the end may stand before one last newline, the dot matches no
    newline, the text ends with a closing parenthesis, and the first group
    is as short as can be, so it ends before the first opening
    parenthesis. *)
Definition TEST_ID_match (idval : text) : option (text * text) :=
  let body := match last idval with
              | Some 10%N => removelast idval
              | _ => idval
              end in
  if existsb (N.eqb 10) body then None
  else match last body with
       | Some 41%N => break_at 40 body
       | _ => None
       end.

(** [nose.plugins.xunit.id_split].  The unpacking
    [head, tail = name.rsplit(".", 1)] raises [ValueError] when the name
    before the arguments holds no dot. *)
Definition sample_id_split (idval : text) : result (list text) :=
  match TEST_ID_match idval with
  | Some (name, fargs) =>
      match rsplit1 name with
      | [head; tail] => inr [head; tail ++ fargs]
      | _ => inl ValueError
      end
  | None => inr (rsplit1 idval)
  end.

(** [s.replace(c, by)] for a one-character [c]. *)
Definition replace_char (c : N) (new : text) (s : text) : text :=
  flat_map (fun x => if (x =? c)%N then new else [x]) s.

(** [nose.plugins.xunit.xml_safe]: the control characters XML forbids
    become question marks. *)
Definition xml_safe (s : text) : text :=
  (fun x => if ((x <=? 8) || (x =? 11) || (x =? 12)
                || ((14 <=? x) && (x <=? 31)))%N then 63%N else x) <$> s.

(** [xml.sax.saxutils.quoteattr] *)
Definition saxutils_quoteattr (data : text) : text :=
  let data := replace_char 38 (u "&amp;") data in
  let data := replace_char 62 (u "&gt;") data in
  let data := replace_char 60 (u "&lt;") data in
  let data := replace_char 10 (u "&#10;") data in
  let data := replace_char 13 (u "&#13;") data in
  let data := replace_char 9 (u "&#9;") data in
  if existsb (N.eqb 34) data then
    if existsb (N.eqb 39) data
    then dq ++ replace_char 34 (u "&quot;") data ++ dq
    else [39%N] ++ data ++ [39%N]
  else dq ++ data ++ dq.

(** [s.replace(']]>', ']]>]]&gt;<![CDATA[')] *)
Fixpoint split_cdata_end (s : text) : text :=
  match s with
  | 93%N :: 93%N :: 62%N :: rest =>
      u "]]>]]&gt;<![CDATA[" ++ split_cdata_end rest
  | x :: rest => x :: split_cdata_end rest
  | [] => []
  end.

(** Rounding the fraction [num / den] to the nearest integer, halves to
    the even one. *)
Definition round_half_even (num den : Z) : Z :=
  let q := (num / den)%Z in
  let r := (num mod den)%Z in
  if (2 * r <? den)%Z then q
  else if (den <? 2 * r)%Z then (q + 1)%Z
  else if Z.even q then q else (q + 1)%Z.

Definition dec_Z (z : Z) : text := dec (Z.to_N z).

Definition pad3 (z : Z) : text :=
  if (z <? 10)%Z then u "00" ++ dec_Z z
  else if (z <? 100)%Z then u "0" ++ dec_Z z
  else dec_Z z.

(** ["%.3f" % x]: the exact value of the float, rounded to thousandths. *)
Definition sample_fmt_3f (x : float) : text :=
  match Prim2SF x with
  | S754_nan => u "nan"
  | S754_infinity s => if s then u "-inf" else u "inf"
  | S754_zero s => (if s then u "-" else []) ++ u "0.000"
  | S754_finite s m e =>
      let n := if (0 <=? e)%Z then (1000 * Z.pos m * 2 ^ e)%Z
               else round_half_even (1000 * Z.pos m) (2 ^ (- e)) in
      (if s then u "-" else []) ++ dec_Z (n / 1000) ++ u "." ++ pad3 (n mod 1000)
  end.

(** [modf]: the integer part of a finite float and what is left of it. *)
Definition modf (x : float) : Z * float :=
  match Prim2SF x with
  | S754_finite s m e =>
      if (0 <=? e)%Z then
        ((if s then - (Z.pos m * 2 ^ e) else Z.pos m * 2 ^ e)%Z, 0%float)
      else
        let i := Z.shiftr (Z.pos m) (- e) in
        let fi := PrimFloat.of_uint63 (Uint63.of_Z i) in
        if s then ((- i)%Z, (x + fi)%float) else (i, (x - fi)%float)
  | _ => (0%Z, x)
  end.

(** A float rounded to the nearest integer, halves to the even one. *)
Definition round_float (x : float) : Z :=
  match Prim2SF x with
  | S754_finite s m e =>
      let n := if (0 <=? e)%Z then (Z.pos m * 2 ^ e)%Z
               else round_half_even (Z.pos m) (2 ^ (- e)) in
      if s then (- n)%Z else n
  | _ => 0%Z
  end.

(** The year, month and day of a day counted from 1970-01-01. *)
Definition civil_from_days (days : Z) : Z * Z * Z :=
  let z := (days + 719468)%Z in
  let era := (z / 146097)%Z in
  let doe := (z - era * 146097)%Z in
  let yoe := ((doe - doe / 1460 + doe / 36524 - doe / 146096) / 365)%Z in
  let doy := (doe - (365 * yoe + yoe / 4 - yoe / 100))%Z in
  let mp := ((5 * doy + 2) / 153)%Z in
  let d := (doy - (153 * mp + 2) / 5 + 1)%Z in
  let m := (if mp <? 10 then mp + 3 else mp - 9)%Z in
  ((yoe + era * 400 + (if m <=? 2 then 1 else 0))%Z, m, d).

(** [gmtime] followed by the check of the year: the C library refuses a
    year that does not fit its [int], Python a year outside 1..9999. *)
Definition utc_fields (sec us : Z) : result datetime :=
  let '(y, m, d) := civil_from_days (sec / 86400) in
  let rem := (sec mod 86400)%Z in
  if negb ((- 2 ^ 31 <=? y - 1900) && (y - 1900 <? 2 ^ 31))%Z then inl OSError
  else if negb ((1 <=? y) && (y <=? 9999))%Z then inl ValueError
  else inr (DateTime (Z.to_N y) (Z.to_N m) (Z.to_N d)
              (Z.to_N (rem / 3600)) (Z.to_N (rem mod 3600 / 60))
              (Z.to_N (rem mod 60)) (Z.to_N us)).

(** [datetime.fromtimestamp(t)] with the local time zone UTC: the time is
    rounded to microseconds; not-a-number and a time outside the range of
    the platform or of [datetime] raise.  The day before is converted too,
    to find out whether the local time is ambiguous. *)
Definition sample_fromtimestamp (t : float) : result datetime :=
  match Prim2SF t with
  | S754_nan => inl ValueError
  | S754_infinity _ => inl OverflowError
  | _ =>
      let '(intpart, floatpart) := modf t in
      let us := round_float (floatpart * 1000000)%float in
      let '(sec, us) :=
        (if 1000000 <=? us then (intpart + 1, us - 1000000)
         else if us <? 0 then (intpart - 1, us + 1000000)
         else (intpart, us))%Z in
      if negb ((- 2 ^ 63 <=? sec) && (sec <=? 2 ^ 63))%Z then inl OverflowError
      else
        dt ← utc_fields sec us;
        _ ← utc_fields (sec - 86400) us;
        inr dt
  end.

Definition lookup_codec (name : text) : option codec :=
  if bool_decide (name = u "UTF-8") then Some utf8_codec
  else if bool_decide (name = u "ascii") then Some ascii_codec
  else None.

(** The exception is given by its class, its message and the text of its
    traceback; no output was captured. *)
Definition env (loc : locale) : Env := {|
  format_exception := fun err _ => exc_tb err;
  id_split := sample_id_split;
  nice_classname := fun c => u (class_name c);
  exc_message := fun err => xml_safe (exc_value err);
  escape_cdata := fun s => split_cdata_end (xml_safe s);
  quoteattr := fun s => saxutils_quoteattr (xml_safe s);
  getCapturedStdout := fun _ => [];
  getCapturedStderr := fun _ => [];
  fmt_3f := sample_fmt_3f;
  fromtimestamp := sample_fromtimestamp;
  lc_time := loc;
  codecs_lookup := lookup_codec
|}.

Definition clock : nat -> float := fun _ => 1000%float.

Definition world0 : world := World ∅ ∅ 0 clock 0 ∅ ∅ [].

Definition opts : options := Options (Some true) (u "nosetests.xml").
Definition conf0 : nose_config := Config 1 None.

(** The plugin and the world once [configure] has run in the first
    process: the list behind proxy 0, the dict behind proxy 1. *)
Definition conf1 : nose_config := Config 1 (Some (0, 1)).

Definition self : plugin :=
  Plugin true (u "UTF-8") (Some conf1) (Some 0) (Some 1)
         (Some (u "nosetests.xml")) None None.

Definition zero_counters : gmap string pyval :=
  <["errors":=VInt 0]> (<["failures":=VInt 0]>
    (<["passes":=VInt 0]> (<["skipped":=VInt 0]> ∅))).

Definition world1 : world :=
  World {[0 := []]} {[1 := zero_counters]} 2 clock 0 ∅ ∅ [].

(** Three tests: one passes, one fails with the message boom, one raises
    the skip signal; the name of the last one holds a lone surrogate,
    which UTF-8 cannot represent. *)
Definition AssertionError : pyclass := PyClass "AssertionError" [Exception].

Definition events : list (option float * outcome) :=
  [ (Some 999%float, Success (Test (u "pkg.mod.test_ok")));
    (None, Failure (Test (u "pkg.mod.test_boom"))
             (ExcInfo AssertionError (u "boom") (u "line1" ++ [10%N] ++ u "line2")));
    (None, Error (Test (u "pkg.mod.test_" ++ [56448%N]))
             (ExcInfo SkipTest (u "not today") (u "skipped here"))) ].

Definition world2 : world :=
  (run_prog (worker (H:=env C_locale) self events) world1).1.

End Sample.

(** ** The vocabulary of the statements *)

Module Spec.

(** The integer held under [k]. *)
Definition counter (m : gmap string pyval) (k : string) : option Z :=
  match m !! k with
  | Some (VInt n) => Some n
  | _ => None
  end.

(** The four counters of the dict behind the proxy [d], in the order
    errors, failures, passes, skipped. *)
Definition counters (w : world) (d : ref) : option (Z * Z * Z * Z) :=
  m ← w_dicts w !! d;
  e ← counter m "errors";
  f ← counter m "failures";
  p ← counter m "passes";
  s ← counter m "skipped";
  Some (e, f, p, s).

Definition total (c : Z * Z * Z * Z) : Z :=
  let '(e, f, p, s) := c in e + f + p + s.

(** The fragments of the list behind the proxy [l]. *)
Definition fragments (w : world) (l : ref) : list text :=
  default [] (w_lists w !! l).

(** The counters dict of a new run. *)
Definition new_counters : gmap string pyval :=
  <["errors":=VInt 0]> (<["failures":=VInt 0]>
    (<["passes":=VInt 0]> (<["skipped":=VInt 0]> ∅))).

(** The dict holds the four counters, as integers. *)
Definition dict_ok (m : gmap string pyval) : Prop :=
  is_Some (counter m "errors") /\ is_Some (counter m "failures") /\
  is_Some (counter m "passes") /\ is_Some (counter m "skipped").

(** The objects behind the proxies [l] and [d] are there and the counters
    are integers. *)
Definition store_ok (w : world) (l d : ref) : Prop :=
  (exists m, w_dicts w !! d = Some m /\ dict_ok m) /\ is_Some (w_lists w !! l).

(** A call of an outcome handler: it creates no object and stores nothing
    but integers in a dict. *)
Definition op_tame {X} (o : op X) : Prop :=
  match o with
  | NewList | NewDict _ => False
  | DictSet _ _ (VStr _) => False
  | _ => True
  end.

Fixpoint tame {A} (p : prog A) : Prop :=
  match p with
  | Do o k => op_tame o /\ forall x, tame (k x)
  | _ => True
  end.

(** The plugin holds the proxies [l] and [d]. *)
Definition attached (self : plugin) (l d : ref) : Prop :=
  errorlist self = Some l /\ stats self = Some d.

(** [ name="value"] *)
Definition xml_attr (name : string) (value : text) : text :=
  u " " ++ u name ++ u "=" ++ dq ++ value ++ dq.


Definition testsuite_open (name : text) (c : Z * Z * Z * Z) : text :=
  let '(e, f, p, s) := c in
  u "<testsuite" ++ xml_attr "name" name
    ++ xml_attr "tests" (str_of_int (total c))
    ++ xml_attr "errors" (str_of_int e)
    ++ xml_attr "failures" (str_of_int f)
    ++ xml_attr "skip" (str_of_int s) ++ u ">".



(** The world after an outcome handler: one more clock reading, the dict
    and the list behind the proxies replaced. *)
Definition after_outcome (w : world) (d l : ref) (m' : gmap string pyval)
    (xs' : list text) : world :=
  World (<[l:=xs']> (w_lists w)) (<[d:=m']> (w_dicts w)) (w_next w)
        (w_clock w) (S (w_ticks w)) (w_files w) (w_open w) (w_stream w).

(** The world after an outcome handler that raised while it put the
    fragment together: one more clock reading, the dict behind the proxy
    replaced, the list as it was. *)
Definition after_increment (w : world) (d : ref) (m' : gmap string pyval) : world :=
  World (w_lists w) (<[d:=m']> (w_dicts w)) (w_next w)
        (w_clock w) (S (w_ticks w)) (w_files w) (w_open w) (w_stream w).




Definition counter_key (o : outcome) : string :=
  match o with
  | Success _ => "passes"
  | Failure _ _ => "failures"
  | Error _ err => if issubclass (exc_type err) SkipTest then "skipped" else "errors"
  end.

Definition outcome_test (o : outcome) : test :=
  match o with
  | Success t | Failure t _ | Error t _ => t
  end.

Section Spec.
Context `{Env}.

(** A date and time as the [started] and [ended] attributes show it. *)
Definition stamp (dt : datetime) : text := strftime lc_time fmt_x_X dt.

(** The start of the test the handler uses, and the duration it reports,
    when the clock reads [now]. *)
Definition used_start (timer : option float) (now : float) : float :=
  match timer with
  | Some t0 => t0
  | None => now
  end.

Definition elapsed (timer : option float) (now : float) : float :=
  match timer with
  | Some t0 => (now - t0)%float
  | None => 0%float
  end.

(** [<tag type=... message=...><![CDATA[...]]></tag>] *)
Definition exc_element (self : plugin) (tag : string) (err : exc_info) : text :=
  u "<" ++ u tag ++ u " type=" ++ quoteattr (nice_classname (exc_type err))
    ++ u " message=" ++ quoteattr (exc_message err) ++ u ">"
    ++ u "<![CDATA[" ++ escape_cdata (format_exception err (encoding self)) ++ u "]]>"
    ++ u "</" ++ u tag ++ u ">".

(** The children of the [testcase] element the handlers write themselves,
    before the captured output. *)
Definition exc_child (self : plugin) (o : outcome) : text :=
  match o with
  | Success _ => []
  | Failure _ err => exc_element self "failure" err
  | Error _ err =>
      if issubclass (exc_type err) SkipTest
      then exc_element self "skipped" err
      else exc_element self "error" err
  end.

(** The [testcase] element with the given attribute values and children. *)
Definition testcase (cls name time started ended : text) (children : text) : text :=
  u "<testcase classname=" ++ cls ++ u " name=" ++ name
    ++ xml_attr "time" time ++ xml_attr "started" started
    ++ xml_attr "ended" ended ++ u ">" ++ children ++ u "</testcase>".

(** The fragment of an outcome whose test started at [started] and took
    [taken], or the exception raised while it is put together. *)
Definition fragment (self : plugin) (o : outcome) (started taken : float)
    : result text :=
  parts ← id_split (test_id (outcome_test o));
  cls ← index_first parts;
  name ← index_last parts;
  dt_started ← fromtimestamp started;
  dt_ended ← fromtimestamp (started + taken)%float;
  inr (testcase (quoteattr cls) (quoteattr name) (fmt_3f taken)
         (stamp dt_started) (stamp dt_ended)
         (exc_child self o ++ getCapturedStdout self ++ getCapturedStderr self)).

End Spec.
End Spec.
Export Spec.

(** ** The command-line options *)

Module Options.

(** What [parser.add_option] records of an option. *)
Inductive action := Store | StoreTrue.

Record option_decl := OptionDecl {
  opt_flag : text;
  opt_action : action;
  opt_dest : string;
  opt_metavar : option text;
  opt_default : option text;
  opt_help : text
}.

(** [env.get(k, default)] on the environment. *)
Definition env_get (env : gmap string text) (k : string) (default : text) : text :=
  match env !! k with
  | Some v => v
  | None => default
  end.

Section Options.
(** [Plugin.options] of nose, which declares the switch of the plugin. *)
Variable Plugin_options :
  list option_decl -> gmap string text -> list option_decl.

(** [XunitMP.options]: the parser once the options are declared. *)
Definition options (parser : list option_decl) (env : gmap string text)
    : list option_decl :=
  let parser := Plugin_options parser env in
  parser ++
  [OptionDecl (u "--xunitmp-file") Store "xunitmp_file" (Some (u "FILE"))
     (Some (env_get env "NOSE_XUNITMP_FILE" (u "nosetests.xml")))
     (u "Path to xml file to store the xunit report in. "
      ++ u "Default is nosetests.xml in the working directory "
      ++ u "[NOSE_XUNIT_FILE]")].

End Options.
End Options.

(** ** Whole runs *)

Module Runs.

(** The counters after one more outcome. *)
Definition bump (c : Z * Z * Z * Z) (o : outcome) : Z * Z * Z * Z :=
  let '(e, f, p, s) := c in
  match o with
  | Success _ => (e, f, p + 1, s)
  | Failure _ _ => (e, f + 1, p, s)
  | Error _ err =>
      if issubclass (exc_type err) SkipTest
      then (e, f, p, s + 1) else (e + 1, f, p, s)
  end%Z.

(** The counters after the outcomes of a worker, in order. *)
Definition tally (c : Z * Z * Z * Z) (evs : list (option float * outcome))
    : Z * Z * Z * Z :=
  foldl (fun c ev => bump c ev.2) c evs.

Section Runs.
Context `{Env}.

(** The fragments of the outcomes of a worker that runs alone, the clock
    standing at [tick] when it starts: every handler reads the clock once.
    When one of them raises there is no such list. *)
Fixpoint worker_fragments (self : plugin) (clock : nat -> float) (tick : nat)
    (evs : list (option float * outcome)) : result (list text) :=
  match evs with
  | [] => inr []
  | ev :: evs' =>
      frag ← fragment (with_timer ev.1 self) ev.2
                (used_start ev.1 (clock tick)) (elapsed ev.1 (clock tick));
      frags ← worker_fragments self clock (S tick) evs';
      inr (frag :: frags)
  end.

End Runs.
End Runs.

(** ** Workers that run at the same time *)

Module Together.

Definition counter_keys : list string :=
  ["errors"; "failures"; "passes"; "skipped"].

(** The counter [key] among the four. *)
Definition counter_of (c : Z * Z * Z * Z) (key : string) : Z :=
  let '(e, f, p, s) := c in
  if decide (key = "errors") then e
  else if decide (key = "failures") then f
  else if decide (key = "passes") then p
  else s.

(** The outcomes that count under [key]. *)
Definition count_key (key : string) (evs : list (option float * outcome)) : nat :=
  length (filter (fun ev => counter_key ev.2 = key) evs).

(** What is left of a worker attached to the list [l] and the dict [d]:
    [n] writes to the counter [key0] and [a] appends are still to come
    unless the worker raises before, and nothing else but readings of the
    clock and of the counters.  [pend] is the counter the worker has read
    and not yet written back, with the value it is about to write. *)
Fixpoint remains (l d : ref) (key0 : string) (pend : option (string * Z))
    (n a : nat) (p : prog unit) : Prop :=
  match p with
  | Ret _ => pend = None /\ n = 0 /\ a = 0
  | Raise _ => True
  | Do o k =>
      let rest := fun x pend' n' a' => remains l d key0 pend' n' a' (k x) in
      match o in op X
            return (X -> option (string * Z) -> nat -> nat -> Prop) -> Prop with
      | Time => fun rest => pend = None /\ forall t, rest t None n a
      | DictGet d' key => fun rest =>
          pend = None /\ d' = d /\ key ∈ counter_keys /\
          forall z, rest (VInt z) (Some (key, (z + 1)%Z)) n a
      | DictSet d' key v => fun rest =>
          d' = d /\ key ∈ counter_keys /\
          (exists z, v = VInt z /\ pend = Some (key, z)) /\
          if decide (key = key0)
          then exists n', n = S n' /\ rest tt None n' a
          else rest tt None n a
      | ListAppend l' x => fun rest =>
          pend = None /\ l' = l /\ exists a', a = S a' /\ rest tt None n a'
      | _ => fun _ => False
      end rest
  end.

(** A pending write to [key0] writes a value above [lo] and at most one
    above [b]. *)
Definition pend_ok (key0 : string) (lo b : Z) (pend : option (string * Z)) : Prop :=
  match pend with
  | Some (key, v) => key = key0 -> (lo < v <= b + 1)%Z
  | None => True
  end.

(** The processes of a pool, with the writes to [key0] and the appends
    they have left between them. *)
Inductive pool_remains (l d : ref) (key0 : string) (lo b : Z)
    : nat -> nat -> list (prog unit) -> Prop :=
| pool_left_nil : pool_remains l d key0 lo b 0 0 []
| pool_left_cons pend n a p N A pool :
    remains l d key0 pend n a p -> pend_ok key0 lo b pend ->
    pool_remains l d key0 lo b N A pool ->
    pool_remains l d key0 lo b (n + N) (a + A) (p :: pool).

(** The store and the pool at some point of a run that began with the
    counter [key0] at [lo], the fragments [xs0] in the list, and [K - lo]
    writes to [key0] and [L - length xs0] appends to come. *)
Definition in_run (l d : ref) (key0 : string) (lo K : Z) (L : nat)
    (xs0 : list text) (w : world) (pool : list (prog unit)) : Prop :=
  exists m xs (b : Z) (N A : nat),
    w_dicts w !! d = Some m /\ dict_ok m /\ w_lists w !! l = Some xs /\
    (exists z, m !! key0 = Some (VInt z) /\
               (lo <= z <= b)%Z /\ ((lo < b)%Z -> (lo < z)%Z)) /\
    pool_remains l d key0 lo b N A pool /\
    (b + Z.of_nat N = K)%Z /\ length xs + A = L /\ xs0 `prefix_of` xs.

(** The world [w] differs from [w0] at most in the list behind [l], in
    the values of the dict behind [d] and in the readings taken from the
    clock. *)
Definition same_outside (l d : ref) (w0 w : world) : Prop :=
  w_files w = w_files w0 /\ w_open w = w_open w0 /\
  w_stream w = w_stream w0 /\ w_next w = w_next w0 /\
  w_clock w = w_clock w0 /\
  (forall d', d' <> d -> w_dicts w !! d' = w_dicts w0 !! d') /\
  (forall l', l' <> l -> w_lists w !! l' = w_lists w0 !! l') /\
  (dom <$> w_dicts w !! d) = (dom <$> w_dicts w0 !! d).

End Together.

(** Two sample workers, attached to the sample store, that report one
    success each, and a schedule in which the second reads the counter
    before the first has written it back. *)
Module SampleRun.

Definition workers : list (plugin * list (option float * outcome)) :=
  [ (Sample.self, [(None, Success (Test (u "pkg.mod.test_a")))]);
    (Sample.self, [(None, Success (Test (u "pkg.mod.test_b")))]) ].

Definition schedule : list nat := [0; 1; 0; 1; 0; 0; 1; 1].

End SampleRun.

(** ** Running programs *)

Section Running.

Lemma run_bind {A B} (p : prog A) (f : A -> prog B) (w : world) :
  run_prog (p ≫= f) w =
  match run_prog p w with
  | (w', inr a) => run_prog (f a) w'
  | (w', inl e) => (w', inl e)
  end.
Proof.
  revert w. induction p as [a|e|X o k IH]; intros w; try reflexivity.
  change (run_prog (Do o (fun x => k x ≫= f)) w = 
          match run_prog (Do o k) w with
          | (w', inr a) => run_prog (f a) w'
          | (w', inl e) => (w', inl e)
          end).
  simpl. destruct (exec_op o w) as [w' [e|x]]; [reflexivity|apply IH].
Qed.

Lemma world_eq (w1 w2 : world) :
  w_lists w1 = w_lists w2 -> w_dicts w1 = w_dicts w2 ->
  w_next w1 = w_next w2 -> w_clock w1 = w_clock w2 ->
  w_ticks w1 = w_ticks w2 -> w_files w1 = w_files w2 ->
  w_open w1 = w_open w2 -> w_stream w1 = w_stream w2 -> w1 = w2.
Proof. destruct w1, w2; cbn; intros; by subst. Qed.


Lemma run_call {X} (o : op X) (w : world) : run_prog (call o) w = exec_op o w.
Proof. unfold call. simpl. by destruct (exec_op o w) as [w' [e|x]]. Qed.

Lemma run_ret {A} (a : A) (w : world) : run_prog (mret a) w = (w, inr a).
Proof. reflexivity. Qed.

Lemma run_lift {A} (r : result A) (w : world) : run_prog (lift r) w = (w, r).
Proof. by destruct r. Qed.

Lemma run_attr {A} (name : string) (a : A) (w : world) :
  run_prog (attr name (Some a)) w = (w, inr a).
Proof. reflexivity. Qed.

End Running.

(** ** The outcome handlers, run alone *)

Section Handlers.
Context `{Env}.

Lemma run_iadd_item (d : ref) (k : string) (w : world) m n :
  w_dicts w !! d = Some m -> m !! k = Some (VInt n) ->
  run_prog (iadd_item d k) w =
  (set_dicts (insert d (<[k:=VInt (n + 1)]> m)) w, inr tt).
Proof.
  intros Hd Hk. unfold iadd_item.
  rewrite run_bind, run_call. simpl. rewrite Hd, Hk.
  rewrite run_bind, run_lift. simpl. by rewrite Hd.
Qed.

(** The text of the source and the text of the statement differ only in
    how the literals are cut and how the appends are nested. *)
Ltac same_text :=
  unfold after_outcome, after_increment, testcase, exc_child, exc_element,
    xml_attr, stamp;
  try match goal with E : issubclass _ _ = _ |- _ => rewrite ?E end;
  cbn; rewrite <- ?app_assoc; reflexivity.

Lemma run_handle (self : plugin) (ev : option float * outcome) (w : world)
    (l d : ref) m n xs :
  attached self l d ->
  w_dicts w !! d = Some m ->
  m !! counter_key ev.2 = Some (VInt n) ->
  w_lists w !! l = Some xs ->
  run_prog (handle self ev) w =
  match fragment (with_timer ev.1 self) ev.2
          (used_start ev.1 (w_clock w (w_ticks w)))
          (elapsed ev.1 (w_clock w (w_ticks w))) with
  | inr frag =>
      (after_outcome w d l (<[counter_key ev.2:=VInt (n + 1)]> m) (xs ++ [frag]),
       inr tt)
  | inl e => (after_increment w d (<[counter_key ev.2:=VInt (n + 1)]> m), inl e)
  end.
Proof.
  intros [Hl Hd] Hm Hk Hxs. destruct ev as [timer o]. cbn in *.
  unfold fragment.
  destruct o as [t|t err|t err]; cbn in Hk |- *;
    unfold addSuccess, addFailure, addError, _timeTaken, start_of_test.
  3: destruct (issubclass (exc_type err) SkipTest) eqn:Hskip.
  all: destruct timer as [t0|];
    repeat (progress (cbn; rewrite ?Hskip, ?Hd, ?Hl, ?Hm, ?Hk, ?Hxs)).
  all: destruct (id_split (test_id t)) as [e1|parts]; cbn; [same_text|].
  all: destruct (index_first parts) as [e2|cls]; cbn; [same_text|].
  all: destruct (index_last parts) as [e3|name]; cbn; [same_text|].
  all: match goal with
       | |- context [fromtimestamp ?x] =>
           destruct (fromtimestamp x) as [e4|dt_started]; cbn; [same_text|]
       end.
  all: match goal with
       | |- context [fromtimestamp ?x] =>
           destruct (fromtimestamp x) as [e5|dt_ended]; cbn; [same_text|]
       end.
  all: rewrite ?Hxs; same_text.
Qed.

End Handlers.

(** ** The report, run alone *)

Section Report.
Context `{Env}.

Lemma counter_Some (m : gmap string pyval) (k : string) (n : Z) :
  counter m k = Some n <-> m !! k = Some (VInt n).
Proof.
  unfold counter. destruct (m !! k) as [[z|s]|]; split; intros E;
    inversion E; subst; reflexivity.
Qed.

Lemma counters_Some (w : world) (d : ref) (e f p s : Z) :
  counters w d = Some (e, f, p, s) <->
  exists m, w_dicts w !! d = Some m /\
    m !! "errors" = Some (VInt e) /\ m !! "failures" = Some (VInt f) /\
    m !! "passes" = Some (VInt p) /\ m !! "skipped" = Some (VInt s).
Proof.
  unfold counters. split.
  - destruct (w_dicts w !! d) as [m|]; [|done]. cbn.
    destruct (counter m "errors") as [e'|] eqn:He; [|done]. cbn.
    destruct (counter m "failures") as [f'|] eqn:Hf; [|done]. cbn.
    destruct (counter m "passes") as [p'|] eqn:Hp; [|done]. cbn.
    destruct (counter m "skipped") as [s'|] eqn:Hs; [|done]. cbn.
    intros [= -> -> -> ->]. exists m. by rewrite <- !counter_Some.
  - intros (m & -> & He & Hf & Hp & Hs). cbn.
    apply counter_Some in He, Hf, Hp, Hs. by rewrite He, Hf, Hp, Hs.
Qed.




End Report.

(** ** The report *)

Section ReportClaims.
Context `{Env}.





End ReportClaims.

(** *** The report of the three sample tests *)

Example sample_configure :
  run_prog (configure new_plugin Sample.opts Sample.conf0) Sample.world0
  = (Sample.world1, inr (Sample.self, Sample.conf1)).
Proof. reflexivity. Qed.

Example sample_counters : counters Sample.world2 1 = Some (0, 1, 1, 1)%Z.
Proof. vm_compute. reflexivity. Qed.

Example sample_fragments : length (fragments Sample.world2 0) = 3.
Proof. vm_compute. reflexivity. Qed.

(** The opening tag of the report of the three sample tests reads
    tests=3, errors=0, failures=1, skip=1. *)
Example sample_testsuite_open :
  testsuite_open (u "nosetests") (0, 1, 1, 1)%Z =
  u "<testsuite name=" ++ dq ++ u "nosetests" ++ dq
    ++ u " tests=" ++ dq ++ u "3" ++ dq ++ u " errors=" ++ dq ++ u "0" ++ dq
    ++ u " failures=" ++ dq ++ u "1" ++ dq ++ u " skip=" ++ dq ++ u "1" ++ dq
    ++ u ">".
Proof. vm_compute. reflexivity. Qed.



(** The third sample fragment holds a code point UTF-8 cannot encode. *)
Example sample_unencodable :
  exists frag, last (fragments Sample.world2 0) = Some frag /\
    56448%N ∈ frag /\ encode_char utf8_codec 56448 = None /\
    encode utf8_codec Strict frag = inl UnicodeEncodeError.
Proof.
  eexists. split; [vm_compute; reflexivity|].
  split; [|split; vm_compute; reflexivity].
  apply list_elem_of_In. vm_compute. tauto.
Qed.




(** ** The outcome handlers *)

Section HandlerClaims.
Import Runs.
Context `{Env}.

Lemma with_timer_id (self : plugin) : with_timer (_timer self) self = self.
Proof. by destruct self. Qed.

(** The counter an outcome is counted under, in a dict that holds the four
    counters, and the counters once it has been written back. *)
Lemma counter_key_bump (m : gmap string pyval) (o : outcome) (e f p s : Z) :
  m !! "errors" = Some (VInt e) -> m !! "failures" = Some (VInt f) ->
  m !! "passes" = Some (VInt p) -> m !! "skipped" = Some (VInt s) ->
  exists n,
    m !! counter_key o = Some (VInt n) /\
    forall (w' : world) (d : ref),
      w_dicts w' !! d = Some (<[counter_key o:=VInt (n + 1)]> m) ->
      counters w' d = Some (bump (e, f, p, s) o).
Proof.
  intros He Hf Hp Hs.
  destruct o as [t|t err|t err]; cbn;
    [| |destruct (issubclass (exc_type err) SkipTest)];
    eexists; (split; [eassumption|]); intros w' d Hd;
    apply counters_Some; eexists; (split; [exact Hd|]);
    rewrite ?lookup_insert_eq; by rewrite ?lookup_insert_ne.
Qed.

(** What a handler does to a store whose counters are integers.  The
    counter is written before the fragment is put together: it goes up
    whether or not that raises. *)
Lemma run_handle_counters (self : plugin) (ev : option float * outcome)
    (w : world) (l d : ref) (c : Z * Z * Z * Z) (xs : list text) :
  attached self l d ->
  counters w d = Some c ->
  w_lists w !! l = Some xs ->
  exists m',
    (forall (w' : world), w_dicts w' !! d = Some m' ->
                          counters w' d = Some (bump c ev.2)) /\
    run_prog (handle self ev) w =
    match fragment (with_timer ev.1 self) ev.2
            (used_start ev.1 (w_clock w (w_ticks w)))
            (elapsed ev.1 (w_clock w (w_ticks w))) with
    | inr frag => (after_outcome w d l m' (xs ++ [frag]), inr tt)
    | inl ex => (after_increment w d m', inl ex)
    end.
Proof.
  intros Hatt Hcnt Hxs. destruct c as [[[e f] p] s].
  apply counters_Some in Hcnt as (m & Hm & He & Hf & Hp & Hs).
  destruct (counter_key_bump m ev.2 e f p s He Hf Hp Hs) as (n & Hk & Hbump).
  exists (<[counter_key ev.2:=VInt (n + 1)]> m).
  split; [intros w' Hw'; by apply Hbump|by apply run_handle].
Qed.

(** The fragment of an outcome whose id splits and whose times convert. *)
Lemma fragment_inr (self : plugin) (o : outcome) (started taken : float)
    (parts : list text) (cls name : text) (dt_started dt_ended : datetime) :
  id_split (test_id (outcome_test o)) = inr parts ->
  index_first parts = inr cls ->
  index_last parts = inr name ->
  fromtimestamp started = inr dt_started ->
  fromtimestamp (started + taken)%float = inr dt_ended ->
  fragment self o started taken =
  inr (testcase (quoteattr cls) (quoteattr name) (fmt_3f taken)
         (stamp dt_started) (stamp dt_ended)
         (exc_child self o ++ getCapturedStdout self ++ getCapturedStderr self)).
Proof.
  intros Hsplit Hcls Hname Hs He. unfold fragment.
  rewrite Hsplit. cbn. rewrite Hcls. cbn. rewrite Hname. cbn.
  rewrite Hs. cbn. by rewrite He.
Qed.

(** A handler on an outcome whose id splits and whose times convert. *)
Lemma run_handle_inr (self : plugin) (ev : option float * outcome)
    (w : world) (l d : ref) (c : Z * Z * Z * Z) (xs parts : list text)
    (cls name : text) (dt_started dt_ended : datetime) :
  attached self l d ->
  counters w d = Some c ->
  w_lists w !! l = Some xs ->
  id_split (test_id (outcome_test ev.2)) = inr parts ->
  index_first parts = inr cls ->
  index_last parts = inr name ->
  fromtimestamp (used_start ev.1 (w_clock w (w_ticks w))) = inr dt_started ->
  fromtimestamp (used_start ev.1 (w_clock w (w_ticks w))
                 + elapsed ev.1 (w_clock w (w_ticks w)))%float = inr dt_ended ->
  exists w',
    run_prog (handle self ev) w = (w', inr tt) /\
    counters w' d = Some (bump c ev.2) /\
    w_ticks w' = S (w_ticks w) /\
    w_lists w' !! l =
      Some (xs ++ [testcase (quoteattr cls) (quoteattr name)
                     (fmt_3f (elapsed ev.1 (w_clock w (w_ticks w))))
                     (stamp dt_started) (stamp dt_ended)
                     (exc_child (with_timer ev.1 self) ev.2
                      ++ getCapturedStdout (with_timer ev.1 self)
                      ++ getCapturedStderr (with_timer ev.1 self))]).
Proof.
  intros Hatt Hcnt Hxs Hsplit Hcls Hname Hs He.
  destruct (run_handle_counters self ev w l d c xs Hatt Hcnt Hxs)
    as (m' & Hbump & Hrun).
  rewrite (fragment_inr _ _ _ _ parts cls name dt_started dt_ended) in Hrun
    by done.
  eexists. split; [exact Hrun|].
  split; [apply Hbump; cbn; apply lookup_insert_eq|].
  split; [reflexivity|]. cbn. apply lookup_insert_eq.
Qed.

(** C3, as amended. On an error whose test id [id_split] splits and whose
    start and end [datetime.fromtimestamp] converts, [addError] returns
    and appends one fragment: when the type of the exception is a subclass
    of [SkipTest] it adds one to [skipped] and leaves [errors] as it is,
    and the fragment is the [testcase] element whose children are one
    [skipped] element and the captured output; on any other exception it
    adds one to [errors], and the child is an [error] element. *)
Theorem addError_classifies (self : plugin) (t : test) (err : exc_info)
    (w : world) (l d : ref) (e f p s : Z) (xs parts : list text)
    (cls name : text) (dt_started dt_ended : datetime) :
  attached self l d ->
  counters w d = Some (e, f, p, s) ->
  w_lists w !! l = Some xs ->
  id_split (test_id t) = inr parts ->
  index_first parts = inr cls ->
  index_last parts = inr name ->
  let now := w_clock w (w_ticks w) in
  let started := used_start (_timer self) now in
  let taken := elapsed (_timer self) now in
  fromtimestamp started = inr dt_started ->
  fromtimestamp (started + taken)%float = inr dt_ended ->
  exists w',
    run_prog (addError self t err) w = (w', inr tt) /\
    if issubclass (exc_type err) SkipTest then
      counters w' d = Some (e, f, p, s + 1)%Z /\
      w_lists w' !! l =
        Some (xs ++ [testcase (quoteattr cls) (quoteattr name) (fmt_3f taken)
                       (stamp dt_started) (stamp dt_ended)
                       (exc_element self "skipped" err
                        ++ getCapturedStdout self ++ getCapturedStderr self)])
    else
      counters w' d = Some (e + 1, f, p, s)%Z /\
      w_lists w' !! l =
        Some (xs ++ [testcase (quoteattr cls) (quoteattr name) (fmt_3f taken)
                       (stamp dt_started) (stamp dt_ended)
                       (exc_element self "error" err
                        ++ getCapturedStdout self ++ getCapturedStderr self)]).
Proof.
  intros Hatt Hcnt Hxs Hsplit Hcls Hname now started taken Hs He.
  destruct (run_handle_inr self (_timer self, Error t err) w l d _ xs parts
              cls name dt_started dt_ended Hatt Hcnt Hxs Hsplit Hcls Hname Hs He)
    as (w' & Hrun & Hc & _ & Hl).
  cbn in Hrun, Hl, Hc. rewrite with_timer_id in Hrun, Hl.
  exists w'. split; [exact Hrun|].
  destruct (issubclass (exc_type err) SkipTest); (split; [exact Hc|exact Hl]).
Qed.

(** C6. Each handler takes as the start of the test the timer when one
    was recorded and the time it reads from the clock otherwise; it reads
    the clock once.  On an outcome whose test id splits and whose start and
    end convert, the fragment it appends reports the duration in [time],
    renders that start in [started] and, in [ended], the start plus the
    duration. *)
Theorem handlers_fall_back_to_now (self : plugin) (ev : option float * outcome)
    (w : world) (l d : ref) (e f p s : Z) (xs parts : list text)
    (cls name : text) (dt_started dt_ended : datetime) :
  attached self l d ->
  counters w d = Some (e, f, p, s) ->
  w_lists w !! l = Some xs ->
  id_split (test_id (outcome_test ev.2)) = inr parts ->
  index_first parts = inr cls ->
  index_last parts = inr name ->
  let now := w_clock w (w_ticks w) in
  let started := match ev.1 with Some t0 => t0 | None => now end in
  let taken := match ev.1 with Some t0 => (now - t0)%float | None => 0%float end in
  fromtimestamp started = inr dt_started ->
  fromtimestamp (started + taken)%float = inr dt_ended ->
  exists w',
    run_prog (handle self ev) w = (w', inr tt) /\
    w_ticks w' = S (w_ticks w) /\
    w_lists w' !! l =
      Some (xs ++ [testcase (quoteattr cls) (quoteattr name) (fmt_3f taken)
                     (stamp dt_started) (stamp dt_ended)
                     (exc_child (with_timer ev.1 self) ev.2
                      ++ getCapturedStdout (with_timer ev.1 self)
                      ++ getCapturedStderr (with_timer ev.1 self))]).
Proof.
  intros Hatt Hcnt Hxs Hsplit Hcls Hname now started taken Hs He.
  destruct (run_handle_inr self ev w l d _ xs parts cls name dt_started
              dt_ended Hatt Hcnt Hxs Hsplit Hcls Hname Hs He)
    as (w' & Hrun & _ & Hticks & Hl).
  exists w'. split; [exact Hrun|]. split; [exact Hticks|exact Hl].
Qed.

(** The format the handlers pass to [strftime]. *)
Example fmt_x_X_read : read_format "%x %X" = Some fmt_x_X.
Proof. reflexivity. Qed.

Lemma stamp_x_X (dt : datetime) :
  stamp dt = date_repr lc_time dt ++ u " " ++ time_repr lc_time dt.
Proof.
  unfold stamp, strftime, fmt_x_X. cbn [flat_map]. by rewrite app_nil_r.
Qed.

(** C7, as amended. The [started] and the [ended] attribute of a fragment
    are rendered by one and the same format: the date representation of
    the locale in force, a space, the time representation of that locale,
    of the local date and time of the start and of the end.  In the C
    locale this is month/day/year and hour:minute:second, two digits
    each. *)
Theorem timestamps_use_locale_format (self : plugin)
    (ev : option float * outcome) (w : world) (l d : ref) (e f p s : Z)
    (xs parts : list text) (cls name : text) (dt_started dt_ended : datetime) :
  attached self l d ->
  counters w d = Some (e, f, p, s) ->
  w_lists w !! l = Some xs ->
  id_split (test_id (outcome_test ev.2)) = inr parts ->
  index_first parts = inr cls ->
  index_last parts = inr name ->
  let now := w_clock w (w_ticks w) in
  fromtimestamp (used_start ev.1 now) = inr dt_started ->
  fromtimestamp (used_start ev.1 now + elapsed ev.1 now)%float = inr dt_ended ->
  let render := fun dt : datetime =>
    date_repr lc_time dt ++ u " " ++ time_repr lc_time dt in
  (exists w',
     run_prog (handle self ev) w = (w', inr tt) /\
     w_lists w' !! l =
       Some (xs ++ [testcase (quoteattr cls) (quoteattr name)
                      (fmt_3f (elapsed ev.1 now))
                      (render dt_started) (render dt_ended)
                      (exc_child (with_timer ev.1 self) ev.2
                       ++ getCapturedStdout (with_timer ev.1 self)
                       ++ getCapturedStderr (with_timer ev.1 self))])) /\
  (lc_time = C_locale ->
   forall dt : datetime,
     render dt =
     pad2 (month dt) ++ u "/" ++ pad2 (day dt) ++ u "/"
     ++ pad2 (year dt mod 100) ++ u " "
     ++ pad2 (hour dt) ++ u ":" ++ pad2 (minute dt) ++ u ":" ++ pad2 (second dt)).
Proof.
  intros Hatt Hcnt Hxs Hsplit Hcls Hname now Hs He render. split.
  - destruct (run_handle_inr self ev w l d _ xs parts cls name dt_started
                dt_ended Hatt Hcnt Hxs Hsplit Hcls Hname Hs He)
      as (w' & Hrun & _ & _ & Hl).
    rewrite !stamp_x_X in Hl.
    exists w'. split; [exact Hrun|exact Hl].
  - intros Hloc dt. unfold render. rewrite Hloc.
    unfold C_locale, hms. cbn [date_repr time_repr].
    rewrite <- ?app_assoc. reflexivity.
Qed.

End HandlerClaims.

(** *** The handlers on the sample tests *)

(** C3, as stated, fails.  Before the arguments of the test id test(1)
    stands a name without a dot, which [id_split] cannot split:
    [addError] has added one to [skipped] when it raises [ValueError], and
    it appends no fragment. *)
Lemma addError_without_fragment :
  id_split (Env:=Sample.env C_locale) (u "test(1)") = inl ValueError /\
  exists w',
    run_prog (addError (H:=Sample.env C_locale) Sample.self
                (Test (u "test(1)"))
                (ExcInfo SkipTest (u "not today") (u "skipped here")))
      Sample.world1 = (w', inl ValueError) /\
    counters Sample.world1 1 = Some (0, 0, 0, 0)%Z /\
    counters w' 1 = Some (0, 0, 0, 1)%Z /\
    fragments w' 0 = [].
Proof.
  split; [vm_compute; reflexivity|].
  eexists. split; [vm_compute; reflexivity|].
  split; [vm_compute; reflexivity|].
  split; vm_compute; reflexivity.
Qed.

(** The times matter as the id does: with a timer that is not a number
    the id is split, [datetime.fromtimestamp] raises, and again the counter
    has gone up and no fragment is appended. *)
Example addError_without_time :
  exists w',
    run_prog (addError (H:=Sample.env C_locale)
                (with_timer (Some nan) Sample.self)
                (Test (u "pkg.mod.test_skip"))
                (ExcInfo SkipTest (u "not today") (u "skipped here")))
      Sample.world1 = (w', inl ValueError) /\
    counters w' 1 = Some (0, 0, 0, 1)%Z /\
    fragments w' 0 = [].
Proof.
  eexists. split; [vm_compute; reflexivity|].
  split; vm_compute; reflexivity.
Qed.

Lemma addError_classifies_witness :
  exists w',
    run_prog (addError (H:=Sample.env C_locale) Sample.self
                (Test (u "pkg.mod.test_skip"))
                (ExcInfo SkipTest (u "not today") (u "skipped here")))
      Sample.world1 = (w', inr tt) /\
    counters w' 1 = Some (0, 0, 0, 1)%Z /\
    length (fragments w' 0) = 1.
Proof.
  destruct (addError_classifies (H:=Sample.env C_locale) Sample.self
              (Test (u "pkg.mod.test_skip"))
              (ExcInfo SkipTest (u "not today") (u "skipped here"))
              Sample.world1 0 1 0 0 0 0 [] [u "pkg.mod"; u "test_skip"]
              (u "pkg.mod") (u "test_skip")
              (DateTime 1970 1 1 0 16 40 0) (DateTime 1970 1 1 0 16 40 0))
    as (w' & Hrun & Hskip).
  - split; reflexivity.
  - vm_compute. reflexivity.
  - vm_compute. reflexivity.
  - vm_compute. reflexivity.
  - reflexivity.
  - reflexivity.
  - vm_compute. reflexivity.
  - vm_compute. reflexivity.
  - cbn in Hskip. destruct Hskip as [Hcnt Hl].
    exists w'. split; [exact Hrun|]. split; [exact Hcnt|].
    unfold fragments. rewrite Hl. reflexivity.
Defined.

Lemma handlers_fall_back_to_now_witness :
  exists w',
    run_prog (handle (H:=Sample.env C_locale) Sample.self
                (None, Success (Test (u "pkg.mod.test_ok"))))
      Sample.world1 = (w', inr tt) /\
    length (fragments w' 0) = 1.
Proof.
  destruct (handlers_fall_back_to_now (H:=Sample.env C_locale) Sample.self
              (None, Success (Test (u "pkg.mod.test_ok")))
              Sample.world1 0 1 0 0 0 0 [] [u "pkg.mod"; u "test_ok"]
              (u "pkg.mod") (u "test_ok")
              (DateTime 1970 1 1 0 16 40 0) (DateTime 1970 1 1 0 16 40 0))
    as (w' & Hrun & _ & Hl).
  - split; reflexivity.
  - vm_compute. reflexivity.
  - vm_compute. reflexivity.
  - vm_compute. reflexivity.
  - reflexivity.
  - reflexivity.
  - vm_compute. reflexivity.
  - vm_compute. reflexivity.
  - exists w'. split; [exact Hrun|].
    unfold fragments. rewrite Hl. reflexivity.
Defined.

(** The sample clock stands at 1000 seconds after the epoch: with the time
    zone UTC that is 1970-01-01 00:16:40. *)
Example sample_fromtimestamp :
  fromtimestamp (Env:=Sample.env C_locale) 1000
  = inr (DateTime 1970 1 1 0 16 40 0).
Proof. vm_compute. reflexivity. Qed.

(** Times [datetime.fromtimestamp] refuses: not-a-number, a time beyond
    the range of the platform, a year after 9999. *)
Example sample_fromtimestamp_raises :
  fromtimestamp (Env:=Sample.env C_locale) nan = inl ValueError /\
  fromtimestamp (Env:=Sample.env C_locale) infinity = inl OverflowError /\
  fromtimestamp (Env:=Sample.env C_locale) 253402300799
  = inr (DateTime 9999 12 31 23 59 59 0) /\
  fromtimestamp (Env:=Sample.env C_locale) 253402300800 = inl ValueError.
Proof. repeat split; vm_compute; reflexivity. Qed.

(** The id of a test that a generator yields has its arguments behind the
    name; [id_split] keeps them with the name. *)
Example sample_id_split :
  id_split (Env:=Sample.env C_locale) (u "pkg.mod.test_gen(1, 2)")
  = inr [u "pkg.mod"; u "test_gen(1, 2)"] /\
  id_split (Env:=Sample.env C_locale) (u "pkg.mod.test_ok")
  = inr [u "pkg.mod"; u "test_ok"] /\
  id_split (Env:=Sample.env C_locale) (u "test_ok") = inr [u "test_ok"].
Proof. repeat split; vm_compute; reflexivity. Qed.

(** A duration is reported in thousandths of a second, halves rounded to
    the even digit. *)
Example sample_fmt_3f :
  fmt_3f (Env:=Sample.env C_locale) (1000 - 999) = u "1.000" /\
  fmt_3f (Env:=Sample.env C_locale) 0.0625 = u "0.062" /\
  fmt_3f (Env:=Sample.env C_locale) 0.1875 = u "0.188".
Proof. repeat split; vm_compute; reflexivity. Qed.

(** C7, as stated, fails: the same outcome, at the same time, gives
    another fragment when another locale is in force; the time 1000 reads
    01/01/70 00:16:40 in the C locale and 01.01.1970 00:16:40 in the
    German one. *)
Lemma timestamps_depend_on_locale :
  (fromtimestamp (Env:=Sample.env C_locale) 1000
     ≫= fun dt => inr (stamp (H:=Sample.env C_locale) dt))
  = inr (u "01/01/70 00:16:40") /\
  (fromtimestamp (Env:=Sample.env de_DE_locale) 1000
     ≫= fun dt => inr (stamp (H:=Sample.env de_DE_locale) dt))
  = inr (u "01.01.1970 00:16:40") /\
  fragments
    (run_prog (handle (H:=Sample.env C_locale) Sample.self
                 (None, Success (Test (u "pkg.mod.test_ok"))))
       Sample.world1).1 0
  = [u "<testcase classname=" ++ dq ++ u "pkg.mod" ++ dq
     ++ u " name=" ++ dq ++ u "test_ok" ++ dq
     ++ u " time=" ++ dq ++ u "0.000" ++ dq
     ++ u " started=" ++ dq ++ u "01/01/70 00:16:40" ++ dq
     ++ u " ended=" ++ dq ++ u "01/01/70 00:16:40" ++ dq
     ++ u "></testcase>"] /\
  fragments
    (run_prog (handle (H:=Sample.env de_DE_locale) Sample.self
                 (None, Success (Test (u "pkg.mod.test_ok"))))
       Sample.world1).1 0
  = [u "<testcase classname=" ++ dq ++ u "pkg.mod" ++ dq
     ++ u " name=" ++ dq ++ u "test_ok" ++ dq
     ++ u " time=" ++ dq ++ u "0.000" ++ dq
     ++ u " started=" ++ dq ++ u "01.01.1970 00:16:40" ++ dq
     ++ u " ended=" ++ dq ++ u "01.01.1970 00:16:40" ++ dq
     ++ u "></testcase>"] /\
  u "01/01/70 00:16:40" <> u "01.01.1970 00:16:40".
Proof.
  split; [vm_compute; reflexivity|].
  split; [vm_compute; reflexivity|].
  split; [vm_compute; reflexivity|].
  split; [vm_compute; reflexivity|].
  intros Heq. vm_compute in Heq. discriminate Heq.
Qed.

Lemma timestamps_use_locale_format_witness :
  (exists w',
     run_prog (handle (H:=Sample.env C_locale) Sample.self
                 (Some 999%float, Failure (Test (u "pkg.mod.test_boom"))
                    (ExcInfo Sample.AssertionError (u "boom") (u "line1"))))
       Sample.world1 = (w', inr tt) /\
     length (fragments w' 0) = 1) /\
  date_repr C_locale (DateTime 1970 1 1 0 16 39 0) ++ u " "
    ++ time_repr C_locale (DateTime 1970 1 1 0 16 39 0)
  = u "01/01/70 00:16:39".
Proof.
  destruct (timestamps_use_locale_format (H:=Sample.env C_locale) Sample.self
              (Some 999%float, Failure (Test (u "pkg.mod.test_boom"))
                 (ExcInfo Sample.AssertionError (u "boom") (u "line1")))
              Sample.world1 0 1 0 0 0 0 [] [u "pkg.mod"; u "test_boom"]
              (u "pkg.mod") (u "test_boom")
              (DateTime 1970 1 1 0 16 39 0) (DateTime 1970 1 1 0 16 40 0))
    as [(w' & Hrun & Hl) Hc].
  - split; reflexivity.
  - vm_compute. reflexivity.
  - vm_compute. reflexivity.
  - vm_compute. reflexivity.
  - reflexivity.
  - reflexivity.
  - vm_compute. reflexivity.
  - vm_compute. reflexivity.
  - split.
    + exists w'. split; [exact Hrun|].
      unfold fragments. rewrite Hl. reflexivity.
    + refine (eq_trans (Hc eq_refl (DateTime 1970 1 1 0 16 39 0)) _).
      vm_compute. reflexivity.
Defined.

(** ** The shared store: initialization *)

Section ConfigureClaims.

Lemma run_configure_attach (self : plugin) (opts : options)
    (conf : nose_config) (w : world) (l d : ref) :
  enabled (Plugin_configure self opts) = true ->
  _nose_xunitmp_state conf = Some (l, d) ->
  exists self',
    run_prog (configure self opts conf) w = (w, inr (self', conf)) /\
    attached self' l d.
Proof.
  intros Hen Hslot. unfold configure. rewrite Hen, Hslot.
  eexists. split; [reflexivity|]. by split.
Qed.

(** C5, as amended. When the plugin is enabled, [configure] attaches to
    the proxies it finds in the slot [_nose_xunitmp_state] of the
    configuration and changes neither the store nor the configuration;
    when the slot is empty it creates an empty list and a dict holding the
    four counters at zero and publishes their proxies in the slot.  After
    that, [configure] of any enabled plugin instance on that configuration
    attaches to the same proxies and leaves the store as it is.  When the
    plugin is not enabled, [configure] creates nothing, attaches to
    nothing and leaves the slot as it was. *)
Theorem configure_attaches_or_allocates (self : plugin) (opts : options)
    (conf : nose_config) (w : world) :
  if enabled (Plugin_configure self opts) then
    exists self' conf' w' l d,
      run_prog (configure self opts conf) w = (w', inr (self', conf')) /\
      attached self' l d /\
      _nose_xunitmp_state conf' = Some (l, d) /\
      match _nose_xunitmp_state conf with
      | Some h => h = (l, d) /\ w' = w /\ conf' = conf
      | None =>
          w_lists w' !! l = Some [] /\
          w_dicts w' !! d = Some new_counters /\
          counters w' d = Some (0, 0, 0, 0)%Z
      end /\
      forall (self2 : plugin) (opts2 : options),
        enabled (Plugin_configure self2 opts2) = true ->
        exists self2',
          run_prog (configure self2 opts2 conf') w' = (w', inr (self2', conf')) /\
          attached self2' l d
  else
    exists self',
      run_prog (configure self opts conf) w = (w, inr (self', conf)) /\
      errorlist self' = errorlist self /\ stats self' = stats self.
Proof.
  destruct (enabled (Plugin_configure self opts)) eqn:Hen.
  - destruct (_nose_xunitmp_state conf) as [[l d]|] eqn:Hslot.
    + destruct (run_configure_attach self opts conf w l d Hen Hslot)
        as (self' & Hrun & Hatt).
      exists self', conf, w, l, d.
      split; [exact Hrun|]. split; [exact Hatt|]. split; [exact Hslot|].
      split; [done|].
      intros self2 opts2 Hen2. by apply run_configure_attach.
    + unfold configure. rewrite Hen, Hslot. cbn.
      eexists _, _, _, (w_next w), (S (w_next w)).
      split; [reflexivity|]. split; [by split|]. split; [reflexivity|].
      split.
      * split; [apply lookup_insert_eq|].
        split; [apply lookup_insert_eq|].
        apply counters_Some. exists new_counters.
        split; [apply lookup_insert_eq|]. by repeat split.
      * intros self2 opts2 Hen2. by apply run_configure_attach.
  - unfold configure. rewrite Hen. cbn.
    eexists. split; [reflexivity|]. unfold Plugin_configure.
    by destruct (enable_plugin_xunitmp opts).
Qed.

End ConfigureClaims.

(** C5, as stated, fails: with the plugin switched off and an empty slot,
    [configure] creates no list and no dict and publishes nothing. *)
Lemma configure_disabled_allocates_nothing :
  _nose_xunitmp_state Sample.conf0 = None /\
  exists self',
    run_prog (configure new_plugin (Options (Some false) (u "nosetests.xml"))
                Sample.conf0) Sample.world0
    = (Sample.world0, inr (self', Sample.conf0)) /\
    errorlist self' = None /\ stats self' = None /\
    w_lists Sample.world0 = ∅ /\ w_dicts Sample.world0 = ∅.
Proof.
  split; [reflexivity|]. eexists. split; [reflexivity|]. by repeat split.
Qed.

Lemma configure_attaches_or_allocates_witness :
  exists self',
    run_prog (configure new_plugin Sample.opts Sample.conf1) Sample.world1
    = (Sample.world1, inr (self', Sample.conf1)) /\
    attached self' 0 1.
Proof.
  pose proof (configure_attaches_or_allocates new_plugin Sample.opts
                Sample.conf1 Sample.world1) as Hc.
  change (enabled (Plugin_configure new_plugin Sample.opts)) with true in Hc.
  change (_nose_xunitmp_state Sample.conf1) with (Some (0, 1)) in Hc.
  destruct Hc as (self' & conf' & w' & l & d & Hrun & Hatt & _ & Hsame & _).
  destruct Hsame as (Hh & Hw & Hconf).
  injection Hh as Hl Hd. subst l d w' conf'.
  exists self'. split; [exact Hrun|exact Hatt].
Defined.

(** ** Worker processes running at the same time *)

Section Interleaving.
Context `{Env}.

(** Two processes that each add one to the same counter, the second
    reading it before the first has written it back. *)
Lemma iadd_item_race (d : ref) (k : string) (w : world)
    (m : gmap string pyval) (n : Z) :
  w_dicts w !! d = Some m -> m !! k = Some (VInt n) ->
  run_schedule [0; 1; 0; 1] (w, [iadd_item d k; iadd_item d k])
  = Some (set_dicts (insert d (<[k:=VInt (n + 1)]> m)) w, [Ret tt; Ret tt]).
Proof.
  intros Hm Hk.
  repeat (progress (cbn; rewrite ?Hm, ?Hk, ?lookup_insert_eq)).
  do 2 f_equal. apply world_eq; cbn; try reflexivity.
  by rewrite !insert_insert_eq.
Qed.

(** The same two increments, one after the other. *)
Lemma iadd_item_in_turn (d : ref) (k : string) (w : world)
    (m : gmap string pyval) (n : Z) :
  w_dicts w !! d = Some m -> m !! k = Some (VInt n) ->
  run_schedule [0; 0; 1; 1] (w, [iadd_item d k; iadd_item d k])
  = Some (set_dicts (insert d (<[k:=VInt (n + 1 + 1)]> m)) w, [Ret tt; Ret tt]).
Proof.
  intros Hm Hk.
  repeat (progress (cbn; rewrite ?Hm, ?Hk, ?lookup_insert_eq)).
  do 2 f_equal. apply world_eq; cbn; try reflexivity.
  by rewrite !insert_insert_eq.
Qed.

(** C2 fails on the code. [self.stats[k] += 1] is two calls on the proxy,
    a read and a write, and the manager may serve the read of one process
    between the read and the write of another: of two increments issued,
    whatever the counter, one is lost. *)
Theorem concurrent_increment_is_lost (d : ref) (k : string) (w : world)
    (m : gmap string pyval) (n : Z) :
  w_dicts w !! d = Some m -> m !! k = Some (VInt n) ->
  exists w' pool',
    run_schedule [0; 1; 0; 1] (w, [iadd_item d k; iadd_item d k])
      = Some (w', pool') /\
    quiesced pool' = true /\
    (w_dicts w' !! d ≫= (.!! k)) = Some (VInt (n + 1)) /\
    VInt (n + 1) <> VInt (n + 2).
Proof.
  intros Hm Hk. eexists _, _. split; [by apply iadd_item_race|].
  split; [reflexivity|]. split.
  - cbn. rewrite lookup_insert_eq. cbn. apply lookup_insert_eq.
  - intros [=]. lia.
Qed.

End Interleaving.

Lemma concurrent_increment_is_lost_witness :
  exists w' pool',
    run_schedule [0; 1; 0; 1]
      (Sample.world1, [iadd_item 1 "errors"; iadd_item 1 "errors"])
      = Some (w', pool') /\
    quiesced pool' = true /\
    counters w' 1 = Some (1, 0, 0, 0)%Z.
Proof.
  destruct (concurrent_increment_is_lost 1 "errors" Sample.world1
              Sample.zero_counters 0)
    as (w' & pool' & Hrun & Hq & Hk & _).
  - reflexivity.
  - reflexivity.
  - exists w', pool'. split; [exact Hrun|]. split; [exact Hq|].
    cbn in Hrun. injection Hrun as <- _. vm_compute. reflexivity.
Defined.

(** C4 fails on the code. Two worker processes report one success each;
    the second reads the counter before the first has written it back.
    Both handlers have finished, two fragments are in the list, and the
    counters add up to one. *)
Theorem interleaved_handlers_break_invariant :
  exists w' pool',
    run_schedule [0; 1; 0; 1; 0; 0; 1; 1]
      (Sample.world1,
       [addSuccess (H:=Sample.env C_locale) Sample.self (Test (u "pkg.mod.test_a"));
        addSuccess (H:=Sample.env C_locale) Sample.self (Test (u "pkg.mod.test_b"))])
      = Some (w', pool') /\
    quiesced pool' = true /\
    counters w' 1 = Some (0, 0, 1, 0)%Z /\
    length (fragments w' 0) = 2.
Proof.
  eexists _, _. split; [vm_compute; reflexivity|].
  split; [reflexivity|]. split; vm_compute; reflexivity.
Qed.

(** The same two handlers, one after the other, keep the counters and the
    fragments in step. *)
Example handlers_in_turn_keep_invariant :
  exists w' pool',
    run_schedule [0; 0; 0; 0; 1; 1; 1; 1]
      (Sample.world1,
       [addSuccess (H:=Sample.env C_locale) Sample.self (Test (u "pkg.mod.test_a"));
        addSuccess (H:=Sample.env C_locale) Sample.self (Test (u "pkg.mod.test_b"))])
      = Some (w', pool') /\
    quiesced pool' = true /\
    counters w' 1 = Some (0, 0, 2, 0)%Z /\
    length (fragments w' 0) = 2.
Proof.
  eexists _, _. split; [vm_compute; reflexivity|].
  split; [reflexivity|]. split; vm_compute; reflexivity.
Qed.

(** ** What every run keeps

    However the calls of the worker processes interleave, the list and the
    dict stay behind their proxies and the four counters stay integers:
    what the statements about [report] assume of the store holds at the end
    of every run. *)

Section EveryRun.
Context `{Env}.

Lemma counter_insert_int (m : gmap string pyval) (k k' : string) (v : Z) :
  is_Some (counter m k') -> is_Some (counter (<[k:=VInt v]> m) k').
Proof.
  intros Hk'. unfold counter. destruct (decide (k = k')) as [->|Hne].
  - by rewrite lookup_insert_eq.
  - by rewrite lookup_insert_ne.
Qed.

Lemma dict_ok_insert_int (m : gmap string pyval) (k : string) (v : Z) :
  dict_ok m -> dict_ok (<[k:=VInt v]> m).
Proof.
  intros (He & Hf & Hp & Hs). repeat split; by apply counter_insert_int.
Qed.

Lemma store_ok_counters (w : world) (l d : ref) :
  store_ok w l d ->
  exists c xs, counters w d = Some c /\ w_lists w !! l = Some xs.
Proof.
  intros [(m & Hm & [e He] & [f Hf] & [p Hp] & [s Hs]) [xs Hxs]].
  exists (e, f, p, s), xs. split; [|exact Hxs].
  apply counters_Some. exists m. by rewrite <- !counter_Some.
Qed.

Lemma exec_op_ok {X} (o : op X) (w : world) (l d : ref) :
  op_tame o -> store_ok w l d -> store_ok (exec_op o w).1 l d.
Proof.
  intros Ho [(m & Hm & Hok) [xs Hxs]].
  destruct o as [|init|d' k|d' k v|l' x|l'| |path|path bs|path|line];
    cbn in *; try done.
  - destruct (w_dicts w !! d') as [m'|]; [|by split; eauto].
    by destruct (m' !! k); split; eauto.
  - destruct v as [z|]; [|done].
    destruct (w_dicts w !! d') as [m'|] eqn:Hd'; [|by split; eauto].
    split; [|by eauto]. cbn.
    destruct (decide (d' = d)) as [->|Hne].
    + rewrite lookup_insert_eq. eexists. split; [reflexivity|].
      assert (m' = m) as -> by congruence.
      by apply dict_ok_insert_int.
    + rewrite lookup_insert_ne by done. eauto.
  - destruct (w_lists w !! l') as [ys|] eqn:Hl'; [|by split; eauto].
    split; [by eauto|]. cbn.
    destruct (decide (l' = l)) as [->|Hne].
    + by rewrite lookup_insert_eq.
    + rewrite lookup_insert_ne by done. eauto.
  - by destruct (w_lists w !! l'); split; eauto.
  - split; eauto.
  - split; eauto.
  - by destruct (bool_decide (path ∈ w_open w)); split; eauto.
  - split; eauto.
  - split; eauto.
Qed.

Lemma tame_bind {A B} (p : prog A) (f : A -> prog B) :
  tame p -> (forall a, tame (f a)) -> tame (p ≫= f).
Proof.
  intros Hp Hf. induction p as [a|e|X o k IH]; cbn; [apply Hf|done|].
  destruct Hp as [Ho Hk]. split; [exact Ho|].
  intros x. apply IH, Hk.
Qed.

Lemma tame_lift {A} (r : result A) : tame (lift r).
Proof. by destruct r. Qed.

Lemma tame_attr {A} (name : string) (o : option A) : tame (attr name o).
Proof. by destruct o. Qed.

Lemma tame_iadd_item (d : ref) (k : string) : tame (iadd_item d k).
Proof.
  unfold iadd_item. cbn. split; [done|]. intros [n|s]; cbn; [|done].
  split; [done|]. by intros [].
Qed.

Lemma tame_timeTaken (self : plugin) : tame (_timeTaken self).
Proof. unfold _timeTaken. by destruct (_timer self); cbn. Qed.

Lemma tame_start_of_test (self : plugin) : tame (start_of_test self).
Proof. unfold start_of_test. by destruct (_timer self); cbn. Qed.

Ltac tame_steps :=
  repeat match goal with
  | |- tame (_timeTaken _) => apply tame_timeTaken
  | |- tame (start_of_test _) => apply tame_start_of_test
  | |- tame (iadd_item _ _) => apply tame_iadd_item
  | |- tame (attr _ _) => apply tame_attr
  | |- tame (lift _) => apply tame_lift
  | |- tame (mbind _ _) => apply tame_bind; [|intros ?]
  | |- tame (mret _) => exact I
  | |- tame (call _) => by cbn
  end.

Lemma tame_handle (self : plugin) (ev : option float * outcome) :
  tame (handle self ev).
Proof.
  destruct ev as [timer [t|t err|t err]]; unfold handle; cbn [fst snd];
    unfold addSuccess, addFailure, addError.
  - tame_steps.
  - tame_steps.
  - apply tame_bind; [apply tame_timeTaken|intros taken].
    apply tame_bind.
    + destruct (issubclass (exc_type err) SkipTest); tame_steps.
    + intros type. tame_steps.
Qed.

Lemma tame_worker (self : plugin) (evs : list (option float * outcome)) :
  tame (worker self evs).
Proof.
  induction evs as [|ev evs IH]; [done|].
  change (worker self (ev :: evs))
    with (handle self ev ≫= fun _ => worker self evs).
  apply tame_bind; [apply tame_handle|done].
Qed.

Lemma step_prog_ok {A} (p p' : prog A) (w w' : world) (l d : ref) :
  tame p -> store_ok w l d -> step_prog p w = Some (w', p') ->
  tame p' /\ store_ok w' l d.
Proof.
  intros Hp Hok Hstep. destruct p as [a|e|X o k]; [done..|].
  destruct Hp as [Ho Hk]. cbn in Hstep.
  pose proof (exec_op_ok o w l d Ho Hok) as Hok'.
  destruct (exec_op o w) as [w1 [e|x]]; injection Hstep as <- <-;
    (split; [|exact Hok']); [done|apply Hk].
Qed.

Lemma run_schedule_ok {A} (s : list nat) (pool pool' : list (prog A))
    (w w' : world) (l d : ref) :
  Forall tame pool -> store_ok w l d ->
  run_schedule s (w, pool) = Some (w', pool') ->
  Forall tame pool' /\ store_ok w' l d.
Proof.
  revert w pool. induction s as [|i s IH]; intros w pool Hpool Hok Hrun.
  - injection Hrun as <- <-. by split.
  - cbn in Hrun. unfold sched_step in Hrun. cbn in Hrun.
    destruct (pool !! i) as [p|] eqn:Hi; [|done].
    destruct (step_prog p w) as [[w1 p1]|] eqn:Hstep; [|done].
    destruct (step_prog_ok p p1 w w1 l d) as [Hp1 Hok1]; [|done..|].
    { by eapply Forall_lookup_1. }
    apply (IH w1 (<[i:=p1]> pool)); [|done..].
    by apply Forall_insert.
Qed.

(** X14. Whatever the workers report and however their calls interleave,
    at any point of the run the store the first [configure] created holds
    the four counters as integers and the list of fragments. *)
Lemma every_run_keeps_store (conf : nose_config) (opts : options) (w0 w1 w' : world)
    (self : plugin) (conf' : nose_config)
    (workers : list (plugin * list (option float * outcome)))
    (s : list nat) (pool' : list (prog unit)) :
  _nose_xunitmp_state conf = None ->
  run_prog (configure new_plugin opts conf) w0 = (w1, inr (self, conf')) ->
  enabled self = true ->
  run_schedule s (w1, (fun pe => worker pe.1 pe.2) <$> workers) = Some (w', pool') ->
  exists l d c xs,
    attached self l d /\ counters w' d = Some c /\ w_lists w' !! l = Some xs.
Proof.
  intros Hslot Hconf Hen Hrun.
  unfold configure in Hconf. rewrite Hslot in Hconf.
  destruct (enabled (Plugin_configure new_plugin opts)) eqn:Hen'.
  - cbn in Hconf. injection Hconf as <- <- <-.
    assert (Hok : store_ok
              (set_next (S (S (w_next w0)))
                 (set_dicts (insert (S (w_next w0)) new_counters)
                    (set_next (S (w_next w0))
                       (set_lists (insert (w_next w0) []) w0))))
              (w_next w0) (S (w_next w0))).
    { split; cbn; [|by rewrite lookup_insert_eq].
      exists new_counters. split; [by rewrite lookup_insert_eq|].
      repeat split; by eexists. }
    assert (Htame : Forall tame ((fun pe => worker pe.1 pe.2) <$> workers)).
    { apply Forall_fmap, Forall_forall. intros pe _. apply tame_worker. }
    destruct (run_schedule_ok s _ pool' _ w' (w_next w0) (S (w_next w0))
                Htame Hok Hrun) as [_ Hok'].
    destruct (store_ok_counters _ _ _ Hok') as (c & xs & Hc & Hxs).
    exists (w_next w0), (S (w_next w0)), c, xs. by repeat split.
  - cbn in Hconf. injection Hconf as <- <- <-. cbn in Hen. congruence.
Qed.

End EveryRun.

(** ** The options *)

Section OptionsFacts.
Import Options.
Variable Plugin_options :
  list option_decl -> gmap string text -> list option_decl.

(** X1. The option declared last by [options] is [--xunitmp-file], with
    destination [xunitmp_file]; its default is the value of the environment
    variable [NOSE_XUNITMP_FILE] and [nosetests.xml] when that variable is
    not set, and it depends on no other variable: [NOSE_XUNIT_FILE], which
    the help text names, is not read. *)
Theorem options_default_file (parser : list option_decl)
    (env env' : gmap string text) :
  env !! "NOSE_XUNITMP_FILE" = env' !! "NOSE_XUNITMP_FILE" ->
  exists decl decl',
    last (options Plugin_options parser env) = Some decl /\
    last (options Plugin_options parser env') = Some decl' /\
    opt_flag decl = u "--xunitmp-file" /\
    opt_dest decl = "xunitmp_file" /\
    opt_default decl =
      Some (default (u "nosetests.xml") (env !! "NOSE_XUNITMP_FILE")) /\
    opt_default decl' = opt_default decl /\
    opt_help decl' = opt_help decl /\
    u "[NOSE_XUNIT_FILE]" `suffix_of` opt_help decl.
Proof.
  intros Henv. unfold options. rewrite !last_snoc.
  eexists _, _. split; [reflexivity|]. split; [reflexivity|]. cbn.
  split; [reflexivity|]. split; [reflexivity|].
  unfold env_get. rewrite <- Henv.
  split; [by destruct (env !! "NOSE_XUNITMP_FILE")|].
  split; [reflexivity|]. split; [reflexivity|].
  eexists (u "Path to xml file to store the xunit report in. "
           ++ u "Default is nosetests.xml in the working directory ").
  by rewrite <- app_assoc.
Qed.

End OptionsFacts.

Lemma options_default_file_witness :
  exists decl,
    last (Options.options (fun parser _ => parser) []
            (<["NOSE_XUNIT_FILE":=u "other.xml"]> ∅)) = Some decl /\
    Options.opt_default decl = Some (u "nosetests.xml").
Proof.
  destruct (options_default_file (fun parser _ => parser) [] ∅
              (<["NOSE_XUNIT_FILE":=u "other.xml"]> ∅))
    as (decl & decl' & _ & Hlast & _ & _ & Hdef & Hsame & _).
  - reflexivity.
  - exists decl'. split; [exact Hlast|]. rewrite Hsame, Hdef. reflexivity.
Defined.

(** ** More on the report *)

Section ReportFacts.
Context `{Env}.




End ReportFacts.

(** ** More on the handlers *)

Section HandlerFacts.
Import Runs.
Context `{Env}.

(** X5. A plugin that [configure] found disabled holds no proxy and no
    file name: its [report] raises [TypeError] when it opens the file, its
    handlers raise [AttributeError] when they reach for [self.stats], and
    neither stores anything. *)
Theorem disabled_plugin_stores_nothing (opts : options) (conf : nose_config)
    (w : world) :
  enabled (Plugin_configure new_plugin opts) = false ->
  exists self',
    run_prog (configure new_plugin opts conf) w = (w, inr (self', conf)) /\
    run_prog (report self') w = (w, inl TypeError) /\
    forall ev : option float * outcome,
      exists w',
        run_prog (handle self' ev) w = (w', inl (AttributeError "stats")) /\
        w_lists w' = w_lists w /\ w_dicts w' = w_dicts w /\
        w_files w' = w_files w /\ w_stream w' = w_stream w.
Proof.
  intros Hen. unfold configure. rewrite Hen. cbn.
  assert (Hsame : Plugin_configure new_plugin opts
                  = Plugin false (u "UTF-8") None None None None None None).
  { unfold Plugin_configure in *.
    destruct (enable_plugin_xunitmp opts) as [[|]|]; [done|reflexivity..]. }
  rewrite Hsame. cbn.
  eexists. split; [reflexivity|]. split; [reflexivity|].
  intros [timer [t|t err|t err]]; unfold handle; cbn [fst snd];
    unfold addSuccess, addFailure, addError, _timeTaken;
    [| |destruct (issubclass (exc_type err) SkipTest)];
    destruct timer as [t0|]; eexists; (split; [reflexivity|done]).
Qed.

(** X6. On a failure whose test id [id_split] splits and whose start and
    end [datetime.fromtimestamp] converts, [addFailure] adds one to
    [failures] and to no other counter, and appends one fragment: the
    [testcase] element whose children are one [failure] element and the
    captured output. *)
Theorem addFailure_counts (self : plugin) (t : test) (err : exc_info)
    (w : world) (l d : ref) (e f p s : Z) (xs parts : list text)
    (cls name : text) (dt_started dt_ended : datetime) :
  attached self l d ->
  counters w d = Some (e, f, p, s) ->
  w_lists w !! l = Some xs ->
  id_split (test_id t) = inr parts ->
  index_first parts = inr cls ->
  index_last parts = inr name ->
  let now := w_clock w (w_ticks w) in
  let started := used_start (_timer self) now in
  let taken := elapsed (_timer self) now in
  fromtimestamp started = inr dt_started ->
  fromtimestamp (started + taken)%float = inr dt_ended ->
  exists w',
    run_prog (addFailure self t err) w = (w', inr tt) /\
    counters w' d = Some (e, f + 1, p, s)%Z /\
    w_lists w' !! l =
      Some (xs ++ [testcase (quoteattr cls) (quoteattr name) (fmt_3f taken)
                     (stamp dt_started) (stamp dt_ended)
                     (exc_element self "failure" err
                      ++ getCapturedStdout self ++ getCapturedStderr self)]).
Proof.
  intros Hatt Hcnt Hxs Hsplit Hcls Hname now started taken Hs He.
  destruct (run_handle_inr self (_timer self, Failure t err) w l d _ xs parts
              cls name dt_started dt_ended Hatt Hcnt Hxs Hsplit Hcls Hname Hs He)
    as (w' & Hrun & Hc & _ & Hl).
  cbn in Hrun, Hl, Hc. rewrite with_timer_id in Hrun, Hl.
  exists w'. split; [exact Hrun|]. split; [exact Hc|exact Hl].
Qed.

(** X7. On a success whose test id [id_split] splits and whose start and
    end [datetime.fromtimestamp] converts, [addSuccess] adds one to
    [passes] and to no other counter, and appends one fragment: the
    [testcase] element that has no child but the captured output. *)
Theorem addSuccess_counts (self : plugin) (t : test)
    (w : world) (l d : ref) (e f p s : Z) (xs parts : list text)
    (cls name : text) (dt_started dt_ended : datetime) :
  attached self l d ->
  counters w d = Some (e, f, p, s) ->
  w_lists w !! l = Some xs ->
  id_split (test_id t) = inr parts ->
  index_first parts = inr cls ->
  index_last parts = inr name ->
  let now := w_clock w (w_ticks w) in
  let started := used_start (_timer self) now in
  let taken := elapsed (_timer self) now in
  fromtimestamp started = inr dt_started ->
  fromtimestamp (started + taken)%float = inr dt_ended ->
  exists w',
    run_prog (addSuccess self t) w = (w', inr tt) /\
    counters w' d = Some (e, f, p + 1, s)%Z /\
    w_lists w' !! l =
      Some (xs ++ [testcase (quoteattr cls) (quoteattr name) (fmt_3f taken)
                     (stamp dt_started) (stamp dt_ended)
                     (getCapturedStdout self ++ getCapturedStderr self)]).
Proof.
  intros Hatt Hcnt Hxs Hsplit Hcls Hname now started taken Hs He.
  destruct (run_handle_inr self (_timer self, Success t) w l d _ xs parts
              cls name dt_started dt_ended Hatt Hcnt Hxs Hsplit Hcls Hname Hs He)
    as (w' & Hrun & Hc & _ & Hl).
  cbn in Hrun, Hl, Hc. rewrite with_timer_id in Hrun, Hl.
  exists w'. split; [exact Hrun|]. split; [exact Hc|exact Hl].
Qed.

(** X15. The counter is written before the test id is split.  On an
    outcome whose id [id_split] refuses, every handler has added one to
    the counter of the outcome when it raises the exception of [id_split];
    it appends no fragment and leaves the files and the status stream as
    they are. *)
Theorem handle_raises_after_increment (self : plugin)
    (ev : option float * outcome) (w : world) (l d : ref) (e f p s : Z)
    (xs : list text) (ex : exn) :
  attached self l d ->
  counters w d = Some (e, f, p, s) ->
  w_lists w !! l = Some xs ->
  id_split (test_id (outcome_test ev.2)) = inl ex ->
  exists w',
    run_prog (handle self ev) w = (w', inl ex) /\
    counters w' d =
      Some (match ev.2 with
            | Success _ => (e, f, p + 1, s)
            | Failure _ _ => (e, f + 1, p, s)
            | Error _ err =>
                if issubclass (exc_type err) SkipTest
                then (e, f, p, s + 1) else (e + 1, f, p, s)
            end)%Z /\
    w_lists w' = w_lists w /\
    w_files w' = w_files w /\ w_stream w' = w_stream w.
Proof.
  intros Hatt Hcnt Hxs Hsplit.
  destruct (run_handle_counters self ev w l d _ xs Hatt Hcnt Hxs)
    as (m' & Hbump & Hrun).
  unfold fragment in Hrun. rewrite Hsplit in Hrun. cbn in Hrun.
  eexists. split; [exact Hrun|].
  split; [apply Hbump; cbn; apply lookup_insert_eq|done].
Qed.

End HandlerFacts.

(** ** A worker that runs alone *)

Section AloneFacts.
Import Runs.
Context `{Env}.

Lemma total_bump (c : Z * Z * Z * Z) (o : outcome) :
  total (bump c o) = (total c + 1)%Z.
Proof.
  destruct c as [[[e f] p] s]. unfold total.
  destruct o as [t|t err|t err]; cbn;
    [| |destruct (issubclass (exc_type err) SkipTest)]; lia.
Qed.

Lemma total_tally (c : Z * Z * Z * Z) (evs : list (option float * outcome)) :
  total (tally c evs) = (total c + Z.of_nat (length evs))%Z.
Proof.
  revert c. induction evs as [|ev evs IH]; intros c; cbn; [lia|].
  unfold tally in IH. rewrite IH, total_bump. lia.
Qed.

Lemma tally_snoc (c : Z * Z * Z * Z) (evs : list (option float * outcome))
    (ev : option float * outcome) :
  tally c (evs ++ [ev]) = bump (tally c evs) ev.2.
Proof. unfold tally. by rewrite foldl_snoc. Qed.

Lemma worker_fragments_cons (self : plugin) (clock : nat -> float) (tick : nat)
    (ev : option float * outcome) (evs : list (option float * outcome))
    (frags : list text) :
  worker_fragments self clock tick (ev :: evs) = inr frags ->
  exists frag frags',
    fragment (with_timer ev.1 self) ev.2
      (used_start ev.1 (clock tick)) (elapsed ev.1 (clock tick)) = inr frag /\
    worker_fragments self clock (S tick) evs = inr frags' /\
    frags = frag :: frags'.
Proof.
  cbn [worker_fragments].
  destruct (fragment _ _ _ _) as [ex|frag]; [done|]. cbn.
  destruct (worker_fragments self clock (S tick) evs) as [ex|frags']; [done|].
  cbn. intros [= <-]. by exists frag, frags'.
Qed.

Lemma length_worker_fragments (self : plugin) (clock : nat -> float) (tick : nat)
    (evs : list (option float * outcome)) (frags : list text) :
  worker_fragments self clock tick evs = inr frags ->
  length frags = length evs.
Proof.
  revert tick frags. induction evs as [|ev evs IH]; intros tick frags Hfr.
  - by injection Hfr as <-.
  - apply worker_fragments_cons in Hfr as (frag & frags' & _ & Hfr & ->).
    cbn. f_equal. by eapply IH.
Qed.

Lemma run_worker_cons (self : plugin) (ev : option float * outcome)
    (evs : list (option float * outcome)) (w : world) :
  run_prog (worker self (ev :: evs)) w =
  match run_prog (handle self ev) w with
  | (w', inr _) => run_prog (worker self evs) w'
  | (w', inl ex) => (w', inl ex)
  end.
Proof.
  change (worker self (ev :: evs))
    with (handle self ev ≫= fun _ => worker self evs).
  apply run_bind.
Qed.

(** A worker alone on outcomes whose fragments can all be put together. *)
Lemma run_worker (self : plugin) (evs : list (option float * outcome))
    (w : world) (l d : ref) (c : Z * Z * Z * Z) (xs frags : list text) :
  attached self l d ->
  counters w d = Some c ->
  w_lists w !! l = Some xs ->
  worker_fragments self (w_clock w) (w_ticks w) evs = inr frags ->
  exists w',
    run_prog (worker self evs) w = (w', inr tt) /\
    counters w' d = Some (tally c evs) /\
    w_lists w' !! l = Some (xs ++ frags) /\
    w_clock w' = w_clock w /\
    w_ticks w' = w_ticks w + length evs /\
    w_files w' = w_files w /\ w_stream w' = w_stream w.
Proof.
  intros Hatt. revert w c xs frags.
  induction evs as [|ev evs IH]; intros w c xs frags Hcnt Hxs Hfr.
  - injection Hfr as <-. exists w. cbn. rewrite app_nil_r.
    repeat split; try done; lia.
  - apply worker_fragments_cons in Hfr as (frag & frags' & Hfrag & Hfr & ->).
    destruct (run_handle_counters self ev w l d c xs Hatt Hcnt Hxs)
      as (m' & Hbump & Hrun).
    rewrite Hfrag in Hrun.
    destruct (IH (after_outcome w d l m' (xs ++ [frag])) (bump c ev.2)
                (xs ++ [frag]) frags')
      as (w' & Hrun' & Hc' & Hl' & Hclock & Hticks & Hfiles & Hstream).
    { apply Hbump. cbn. apply lookup_insert_eq. }
    { cbn. apply lookup_insert_eq. }
    { exact Hfr. }
    exists w'. split; [by rewrite run_worker_cons, Hrun|].
    split; [exact Hc'|]. split; [by rewrite Hl', <- app_assoc|].
    split; [exact Hclock|]. split; [|done].
    rewrite Hticks. cbn. lia.
Qed.

(** A worker running alone: as long as no handler raises, every outcome
    adds one to the counters and one fragment to the list. *)
Lemma worker_alone (self : plugin) (evs : list (option float * outcome))
    (w : world) (l d : ref) (c : Z * Z * Z * Z) (xs frags : list text) :
  attached self l d ->
  counters w d = Some c ->
  w_lists w !! l = Some xs ->
  worker_fragments self (w_clock w) (w_ticks w) evs = inr frags ->
  exists w' c' xs',
    run_prog (worker self evs) w = (w', inr tt) /\
    counters w' d = Some c' /\
    w_lists w' !! l = Some xs' /\
    total c' = (total c + Z.of_nat (length evs))%Z /\
    length xs' = length xs + length evs.
Proof.
  intros Hatt Hcnt Hxs Hfr.
  destruct (run_worker self evs w l d c xs frags Hatt Hcnt Hxs Hfr)
    as (w' & Hrun & Hc & Hl & _).
  exists w', (tally c evs), (xs ++ frags).
  split; [exact Hrun|]. split; [exact Hc|]. split; [exact Hl|].
  split; [apply total_tally|].
  rewrite length_app. f_equal. by eapply length_worker_fragments.
Qed.

(** X8. A worker that runs alone handles its outcomes in order.  When the
    fragments of all its outcomes can be put together, the worker returns:
    every success has added one to [passes], every failure one to
    [failures], every skip one to [skipped] and every other error one to
    [errors]; the fragments are appended behind those already there, one
    for each outcome, in the order of the outcomes.  So the sum of the
    counters grows by the number of outcomes, and so does the number of
    fragments. *)
Theorem worker_alone_counts (self : plugin)
    (evs : list (option float * outcome)) (w : world) (l d : ref)
    (c : Z * Z * Z * Z) (xs frags : list text) :
  attached self l d ->
  counters w d = Some c ->
  w_lists w !! l = Some xs ->
  worker_fragments self (w_clock w) (w_ticks w) evs = inr frags ->
  exists w' c',
    run_prog (worker self evs) w = (w', inr tt) /\
    counters w' d = Some c' /\
    c' = foldl (fun c ev => bump c ev.2) c evs /\
    total c' = (total c + Z.of_nat (length evs))%Z /\
    w_lists w' !! l = Some (xs ++ frags) /\
    length frags = length evs.
Proof.
  intros Hatt Hcnt Hxs Hfr.
  destruct (run_worker self evs w l d c xs frags Hatt Hcnt Hxs Hfr)
    as (w' & Hrun & Hc & Hl & _).
  exists w', (tally c evs).
  split; [exact Hrun|]. split; [exact Hc|]. split; [reflexivity|].
  split; [apply total_tally|]. split; [exact Hl|].
  by eapply length_worker_fragments.
Qed.



End AloneFacts.

(** ** Workers that run at the same time: what every schedule keeps *)

Section TogetherFacts.
Import Runs Together.
Context `{Env}.
Variables (l d : ref) (key0 : string).

Lemma remains_bind (pend : option (string * Z)) (n a n' a' : nat)
    (p q : prog unit) :
  remains l d key0 pend n a p -> remains l d key0 None n' a' q ->
  remains l d key0 pend (n + n') (a + a') (p ≫= fun _ => q).
Proof.
  revert pend n a. induction p as [[]|e|X o k IH]; intros pend n a Hp Hq.
  - destruct Hp as (-> & -> & ->). exact Hq.
  - exact I.
  - destruct o; cbn in Hp |- *; try done.
    + destruct Hp as (-> & -> & Hkey & Hk). repeat split; [done|].
      intros z. by apply IH.
    + destruct Hp as (-> & Hkey & Hv & Hk). repeat split; [done..|].
      destruct (decide (k0 = key0)).
      * destruct Hk as (n0 & -> & Hk). exists (n0 + n'). split; [done|].
        by apply IH.
      * by apply IH.
    + destruct Hp as (-> & -> & a0 & -> & Hk). repeat split.
      exists (a0 + a'). split; [done|]. by apply IH.
    + destruct Hp as (-> & Hk). split; [done|]. intros t. by apply IH.
Qed.

Ltac remains_steps :=
  repeat (cbn;
    match goal with
    | |- True => exact I
    | |- _ /\ _ => split
    | |- forall _, _ => intros ?
    | |- _ = _ => reflexivity
    | |- _ ∈ counter_keys => unfold counter_keys; set_solver
    | |- if decide (?k = key0) then _ else _ =>
        destruct (decide (k = key0)); try congruence
    | |- exists z, VInt _ = VInt z /\ _ => eexists; split; reflexivity
    | |- exists n, S _ = S n /\ _ => eexists; split; [reflexivity|]
    | |- exists n, 1 = S n /\ _ => eexists; split; [reflexivity|]
    | |- context [lift ?r] => destruct r
    end).

Lemma remains_handle (self : plugin) (ev : option float * outcome) :
  attached self l d ->
  remains l d key0 None
    (if decide (counter_key ev.2 = key0) then 1 else 0) 1 (handle self ev).
Proof.
  intros [Hl Hd].
  destruct ev as [timer [t|t err|t err]]; unfold handle; cbn [fst snd] in *;
    unfold addSuccess, addFailure, addError, _timeTaken, start_of_test;
    cbn [outcome_test counter_key] in *;
    [| |destruct (issubclass (exc_type err) SkipTest)];
    match goal with
    | |- context [decide (?k = key0)] => destruct (decide (k = key0))
    end;
    destruct timer as [t0|]; cbn; rewrite ?Hd, ?Hl; remains_steps.
  all: try done.
Qed.

Lemma remains_worker (self : plugin) (evs : list (option float * outcome)) :
  attached self l d ->
  remains l d key0 None (count_key key0 evs) (length evs) (worker self evs).
Proof.
  intros Hatt. induction evs as [|ev evs IH]; [done|].
  change (worker self (ev :: evs))
    with (handle self ev ≫= fun _ => worker self evs).
  unfold count_key. rewrite filter_cons. cbn [length].
  change (S (length evs)) with (1 + length evs).
  pose proof (remains_handle self ev Hatt) as Hh.
  destruct (decide (counter_key ev.2 = key0)); cbn [length];
    [change (S ?n) with (1 + n)|change (length ?x) with (0 + length x)];
    by apply remains_bind.
Qed.

Lemma dict_ok_lookup (m : gmap string pyval) (key : string) :
  dict_ok m -> key ∈ counter_keys -> exists z, m !! key = Some (VInt z).
Proof.
  intros (He & Hf & Hp & Hs) Hkey.
  unfold counter_keys in Hkey.
  repeat (apply elem_of_cons in Hkey as [->|Hkey]);
    [destruct He as [z Hz]|destruct Hf as [z Hz]|destruct Hp as [z Hz]
    |destruct Hs as [z Hz]|by apply elem_of_nil in Hkey];
    exists z; by apply counter_Some.
Qed.

Lemma pend_ok_mono (lo b b' : Z) (pend : option (string * Z)) :
  (b <= b')%Z -> pend_ok key0 lo b pend -> pend_ok key0 lo b' pend.
Proof.
  intros Hb. destruct pend as [[key v]|]; [|done]. cbn.
  intros Hv Hkey. specialize (Hv Hkey). lia.
Qed.

Lemma pool_remains_mono (lo b b' : Z) (N A : nat) (pool : list (prog unit)) :
  (b <= b')%Z ->
  pool_remains l d key0 lo b N A pool -> pool_remains l d key0 lo b' N A pool.
Proof.
  intros Hb. induction 1 as [|pend n a p N A pool Hp Hpend _ IH];
    [constructor|].
  econstructor; [exact Hp|by eapply pend_ok_mono|exact IH].
Qed.

Lemma pool_remains_lookup (lo b : Z) (N A : nat) (pool : list (prog unit))
    (i : nat) (p : prog unit) :
  pool_remains l d key0 lo b N A pool -> pool !! i = Some p ->
  exists pend n a N' A',
    remains l d key0 pend n a p /\ pend_ok key0 lo b pend /\
    N = n + N' /\ A = a + A' /\
    forall b' pend' n' a' p',
      (b <= b')%Z -> remains l d key0 pend' n' a' p' ->
      pend_ok key0 lo b' pend' ->
      pool_remains l d key0 lo b' (n' + N') (a' + A') (<[i:=p']> pool).
Proof.
  intros Hpool. revert i.
  induction Hpool as [|pend n a q N A pool Hq Hpend Hpool IH]; intros i Hi;
    [done|].
  destruct i as [|i]; cbn in Hi.
  - injection Hi as ->. exists pend, n, a, N, A.
    repeat split; try done.
    intros b' pend' n' a' p' Hb Hp' Hpend'. cbn.
    econstructor; [exact Hp'|exact Hpend'|by eapply pool_remains_mono].
  - destruct (IH i Hi) as (pend1 & n1 & a1 & N1 & A1 & Hp & Hpend1 & -> & -> & Hupd).
    exists pend1, n1, a1, (n + N1), (a + A1).
    split; [exact Hp|]. split; [exact Hpend1|].
    split; [lia|]. split; [lia|].
    intros b' pend' n' a' p' Hb Hp' Hpend'. cbn.
    replace (n' + (n + N1)) with (n + (n' + N1)) by lia.
    replace (a' + (a + A1)) with (a + (a' + A1)) by lia.
    econstructor; [exact Hq|by eapply pend_ok_mono|by apply (Hupd b' pend')].
Qed.

Lemma pool_remains_returned (lo b : Z) (N A : nat) (pool : list (prog unit)) :
  pool_remains l d key0 lo b N A pool ->
  Forall (fun p => p = Ret tt) pool ->
  N = 0 /\ A = 0.
Proof.
  induction 1 as [|pend n a p N A pool Hp Hpend _ IH]; intros Hret; [done|].
  apply Forall_cons in Hret as [-> Hret].
  destruct (IH Hret) as (-> & ->).
  by destruct Hp as (_ & -> & ->).
Qed.

Lemma in_run_step (lo K : Z) (L : nat) (xs0 : list text)
    (w w' : world) (pool pool' : list (prog unit)) (i : nat) :
  in_run l d key0 lo K L xs0 w pool ->
  sched_step i (w, pool) = Some (w', pool') ->
  in_run l d key0 lo K L xs0 w' pool'.
Proof.
  intros (m & xs & b & N & A & Hm & Hok & Hxs & (z0 & Hz0 & Hz0b & Hz0lo)
          & Hpool & HK & HL & Hpre) Hstep.
  unfold sched_step in Hstep. cbn in Hstep.
  destruct (pool !! i) as [p|] eqn:Hi; [|done].
  destruct (pool_remains_lookup lo b N A pool i p Hpool Hi)
    as (pend & n & a & N' & A' & Hp & Hpend & -> & -> & Hupd).
  destruct p as [x|e|X o k]; [done..|].
  destruct o; cbn in Hp; try done.
  - (* d[k] *)
    destruct Hp as (-> & -> & Hkey & Hk).
    destruct (dict_ok_lookup m k0 Hok Hkey) as [z Hz].
    cbn in Hstep. rewrite Hm, Hz in Hstep. injection Hstep as <- <-.
    exists m, xs, b, (n + N'), (a + A').
    split; [done|]. split; [done|]. split; [done|]. split; [by eauto|].
    split; [|done].
    apply (Hupd b (Some (k0, (z + 1)%Z)) n a); [lia|apply Hk|]. cbn. intros ->.
    assert (z = z0) as -> by congruence. lia.
  - (* d[k] = v *)
    destruct Hp as (-> & Hkey & (z & -> & ->) & Hk).
    cbn in Hstep. rewrite Hm in Hstep. injection Hstep as <- <-.
    destruct (decide (k0 = key0)) as [->|Hne].
    + destruct Hk as (n' & -> & Hk). specialize (Hpend eq_refl).
      exists (<[key0:=VInt z]> m), xs, (b + 1)%Z, (n' + N'), (a + A').
      split; [cbn; apply lookup_insert_eq|].
      split; [by apply dict_ok_insert_int|]. split; [done|].
      split; [exists z; rewrite lookup_insert_eq; split; [done|lia]|].
      split; [apply (Hupd (b + 1)%Z None n' a); [lia|done..]|].
      split; [lia|done].
    + exists (<[k0:=VInt z]> m), xs, b, (n + N'), (a + A').
      split; [cbn; apply lookup_insert_eq|].
      split; [by apply dict_ok_insert_int|]. split; [done|].
      split; [exists z0; by rewrite lookup_insert_ne|].
      split; [apply (Hupd b None n a); [lia|done..]|done].
  - (* l.append(x) *)
    destruct Hp as (-> & -> & a' & -> & Hk).
    cbn in Hstep. rewrite Hxs in Hstep. injection Hstep as <- <-.
    exists m, (xs ++ [x]), b, (n + N'), (a' + A').
    split; [done|]. split; [done|].
    split; [cbn; apply lookup_insert_eq|]. split; [by eauto|].
    split; [apply (Hupd b None n a'); [lia|done..]|]. split; [done|].
    split; [rewrite length_app; cbn; lia|by apply prefix_app_r].
  - (* time() *)
    destruct Hp as (-> & Hk). cbn in Hstep. injection Hstep as <- <-.
    exists m, xs, b, (n + N'), (a + A').
    split; [done|]. split; [done|]. split; [done|]. split; [by eauto|].
    split; [|done].
    apply (Hupd b None n a); [lia|apply Hk|done].
Qed.

Lemma in_run_schedule (lo K : Z) (L : nat) (xs0 : list text) (s : list nat)
    (w w' : world) (pool pool' : list (prog unit)) :
  in_run l d key0 lo K L xs0 w pool ->
  run_schedule s (w, pool) = Some (w', pool') ->
  in_run l d key0 lo K L xs0 w' pool'.
Proof.
  revert w pool. induction s as [|i s IH]; intros w pool Hin Hrun.
  - by injection Hrun as <- <-.
  - cbn [run_schedule] in Hrun.
    destruct (sched_step i (w, pool)) as [[w1 pool1]|] eqn:Hstep; [|done].
    eapply IH; [|exact Hrun]. by eapply in_run_step.
Qed.

Lemma pool_remains_workers (lo b : Z)
    (workers : list (plugin * list (option float * outcome))) :
  Forall (fun pe => attached pe.1 l d) workers ->
  pool_remains l d key0 lo b
    (sum_list_with (fun pe => count_key key0 pe.2) workers)
    (sum_list_with (fun pe => length pe.2) workers)
    ((fun pe => worker pe.1 pe.2) <$> workers).
Proof.
  induction 1 as [|[self evs] workers Hatt _ IH]; cbn; [constructor|].
  econstructor; [by apply remains_worker|done|exact IH].
Qed.

End TogetherFacts.

Section TogetherClaims.
Import Runs Together.
Context `{Env}.

Lemma counters_dict_ok (w : world) (d : ref) (c : Z * Z * Z * Z) :
  counters w d = Some c ->
  exists m, w_dicts w !! d = Some m /\ dict_ok m /\
    forall key, key ∈ counter_keys -> m !! key = Some (VInt (counter_of c key)).
Proof.
  destruct c as [[[e f] p] s]. intros Hc.
  apply counters_Some in Hc as (m & Hm & He & Hf & Hp & Hs).
  exists m. split; [exact Hm|]. split.
  - unfold dict_ok. rewrite <- !counter_Some in He, Hf, Hp, Hs.
    rewrite He, Hf, Hp, Hs. by repeat split.
  - intros key Hkey. unfold counter_keys in Hkey.
    repeat (apply elem_of_cons in Hkey as [->|Hkey]); try done.
    by apply elem_of_nil in Hkey.
Qed.

Lemma dict_ok_counters (w : world) (d : ref) (m : gmap string pyval) :
  w_dicts w !! d = Some m -> dict_ok m ->
  exists c, counters w d = Some c /\
    forall key, key ∈ counter_keys -> m !! key = Some (VInt (counter_of c key)).
Proof.
  intros Hm ([e He] & [f Hf] & [p Hp] & [s Hs]).
  assert (Hc : counters w d = Some (e, f, p, s)).
  { apply counters_Some. exists m. by rewrite <- !counter_Some. }
  exists (e, f, p, s). split; [exact Hc|].
  destruct (counters_dict_ok w d _ Hc) as (m' & Hm' & _ & Hkeys).
  by assert (m' = m) as -> by congruence.
Qed.

Lemma in_run_start (l d : ref) (key0 : string)
    (workers : list (plugin * list (option float * outcome)))
    (w : world) (c : Z * Z * Z * Z) (xs0 : list text) :
  Forall (fun pe => attached pe.1 l d) workers ->
  key0 ∈ counter_keys ->
  counters w d = Some c ->
  w_lists w !! l = Some xs0 ->
  in_run l d key0 (counter_of c key0)
    (counter_of c key0
     + Z.of_nat (sum_list_with (fun pe => count_key key0 pe.2) workers))
    (length xs0 + sum_list_with (fun pe => length pe.2) workers)
    xs0 w ((fun pe => worker pe.1 pe.2) <$> workers).
Proof.
  intros Hatt Hkey Hc Hxs.
  destruct (counters_dict_ok w d c Hc) as (m & Hm & Hok & Hkeys).
  exists m, xs0, (counter_of c key0),
    (sum_list_with (fun pe => count_key key0 pe.2) workers),
    (sum_list_with (fun pe => length pe.2) workers).
  split; [done|]. split; [done|]. split; [done|].
  split; [exists (counter_of c key0); split; [by apply Hkeys|lia]|].
  split; [by apply pool_remains_workers|]. done.
Qed.

Lemma run_together (l d : ref) (key : string)
    (workers : list (plugin * list (option float * outcome)))
    (w w' : world) (c : Z * Z * Z * Z) (xs0 : list text) (s : list nat)
    (pool' : list (prog unit)) :
  Forall (fun pe => attached pe.1 l d) workers ->
  counters w d = Some c ->
  w_lists w !! l = Some xs0 ->
  run_schedule s (w, (fun pe => worker pe.1 pe.2) <$> workers) = Some (w', pool') ->
  key ∈ counter_keys ->
  exists c' xs',
    counters w' d = Some c' /\
    w_lists w' !! l = Some xs' /\
    xs0 `prefix_of` xs' /\
    length xs' <= length xs0 + sum_list_with (fun pe => length pe.2) workers /\
    (counter_of c key <= counter_of c' key
     <= counter_of c key
        + Z.of_nat (sum_list_with (fun pe => count_key key pe.2) workers))%Z /\
    (Forall (fun p => p = Ret tt) pool' ->
     length xs' = length xs0 + sum_list_with (fun pe => length pe.2) workers /\
     (0 < sum_list_with (fun pe => count_key key pe.2) workers ->
      (counter_of c key < counter_of c' key)%Z)).
Proof.
  intros Hatt Hc Hxs Hrun Hk.
  pose proof (in_run_start l d key workers w c xs0 Hatt Hk Hc Hxs) as Hin.
  destruct (in_run_schedule l d key _ _ _ _ s w w' _ pool' Hin Hrun)
    as (m & xs & b & N & A & Hm & Hok & Hxs' & (z & Hz & Hzb & Hzlo)
        & Hpool & HK & HL & Hpre).
  destruct (dict_ok_counters w' d m Hm Hok) as (c' & Hc' & Hkeys).
  rewrite (Hkeys key Hk) in Hz. injection Hz as <-.
  exists c', xs. split; [exact Hc'|]. split; [exact Hxs'|].
  split; [exact Hpre|]. split; [lia|]. split; [lia|].
  intros Hret.
  destruct (pool_remains_returned l d key _ _ _ _ _ Hpool Hret) as (-> & ->).
  split; [lia|]. intros Hpos. apply Hzlo. lia.
Qed.

(** X10. However the calls of the workers interleave, no fragment is
    lost: the fragments that were in the list stay at its head, unchanged,
    and the list never holds more fragments than outcomes were handed to
    the workers.  When every worker has returned, none having raised, the
    list has grown by exactly one fragment for each outcome. *)
Theorem together_no_fragment_lost (l d : ref)
    (workers : list (plugin * list (option float * outcome)))
    (w w' : world) (c : Z * Z * Z * Z) (xs0 : list text) (s : list nat)
    (pool' : list (prog unit)) :
  Forall (fun pe => attached pe.1 l d) workers ->
  counters w d = Some c ->
  w_lists w !! l = Some xs0 ->
  run_schedule s (w, (fun pe => worker pe.1 pe.2) <$> workers) = Some (w', pool') ->
  exists xs',
    w_lists w' !! l = Some xs' /\
    xs0 `prefix_of` xs' /\
    length xs' <= length xs0 + sum_list_with (fun pe => length pe.2) workers /\
    (Forall (fun p => p = Ret tt) pool' ->
     length xs' = length xs0 + sum_list_with (fun pe => length pe.2) workers).
Proof.
  intros Hatt Hc Hxs Hrun.
  destruct (run_together l d "errors" workers w w' c xs0 s pool' Hatt Hc Hxs Hrun)
    as (c' & xs' & Hc' & Hxs' & Hpre & Hlen & Hb & Hq).
  { by repeat constructor. }
  exists xs'. split; [exact Hxs'|]. split; [exact Hpre|]. split; [exact Hlen|].
  intros Hret. by destruct (Hq Hret) as (Hlen' & _).
Qed.

(** X11. However the calls of the workers interleave, each counter stays
    an integer between the value it had and that value plus the number of
    outcomes of its kind: updates may be lost, a counter never counts too
    much.  When every worker has returned, none having raised, a counter
    of which at least one outcome was handled is above the value it
    had. *)
Theorem together_counter_bounds (l d : ref)
    (workers : list (plugin * list (option float * outcome)))
    (w w' : world) (c : Z * Z * Z * Z) (xs0 : list text) (s : list nat)
    (pool' : list (prog unit)) :
  Forall (fun pe => attached pe.1 l d) workers ->
  counters w d = Some c ->
  w_lists w !! l = Some xs0 ->
  run_schedule s (w, (fun pe => worker pe.1 pe.2) <$> workers) = Some (w', pool') ->
  exists c',
    counters w' d = Some c' /\
    forall key, key ∈ counter_keys ->
      (counter_of c key <= counter_of c' key
       <= counter_of c key
          + Z.of_nat (sum_list_with (fun pe => count_key key pe.2) workers))%Z /\
      (Forall (fun p => p = Ret tt) pool' ->
       0 < sum_list_with (fun pe => count_key key pe.2) workers ->
       (counter_of c key < counter_of c' key)%Z).
Proof.
  intros Hatt Hc Hxs Hrun.
  destruct (run_together l d "errors" workers w w' c xs0 s pool' Hatt Hc Hxs Hrun)
    as (c' & xs1 & Hc' & Hrest).
  { by repeat constructor. }
  exists c'. split; [exact Hc'|]. intros key Hk.
  destruct (run_together l d key workers w w' c xs0 s pool' Hatt Hc Hxs Hrun Hk)
    as (c'' & xs2 & Hc'' & Hxs2 & Hpre2 & Hlen2 & Hb & Hq).
  assert (c'' = c') as -> by congruence.
  split; [exact Hb|]. intros Hret. by destruct (Hq Hret) as (_ & Hlo).
Qed.





Lemma same_outside_step (l d : ref) (key0 : string) (lo K : Z) (L : nat)
    (xs0 : list text) (w0 w w' : world) (pool pool' : list (prog unit))
    (i : nat) :
  in_run l d key0 lo K L xs0 w pool ->
  same_outside l d w0 w ->
  sched_step i (w, pool) = Some (w', pool') ->
  same_outside l d w0 w'.
Proof.
  intros (m & xs & b & N & A & Hm & Hok & Hxs & _ & Hpool & _)
         (Hfiles & Hopen & Hstream & Hnext & Hclock & Hdicts & Hlists & Hdom) Hstep.
  unfold sched_step in Hstep. cbn in Hstep.
  destruct (pool !! i) as [p|] eqn:Hi; [|done].
  destruct (pool_remains_lookup l d key0 lo b N A pool i p Hpool Hi)
    as (pend & n & a & N' & A' & Hp & _).
  destruct p as [x|e|X o k]; [done..|].
  destruct o; cbn in Hp; try done.
  - destruct Hp as (-> & -> & Hkey & Hk).
    destruct (dict_ok_lookup m k0 Hok Hkey) as [z Hz].
    cbn in Hstep. rewrite Hm, Hz in Hstep. by injection Hstep as <- <-.
  - destruct Hp as (-> & Hkey & (z & -> & ->) & Hk).
    cbn in Hstep. rewrite Hm in Hstep. injection Hstep as <- <-.
    repeat split; try done; cbn.
    + intros d' Hne. rewrite lookup_insert_ne by done. by apply Hdicts.
    + rewrite lookup_insert_eq. rewrite <- Hdom, Hm. cbn. f_equal.
      destruct (dict_ok_lookup m k0 Hok Hkey) as [z' Hz'].
      rewrite dom_insert_L.
      apply subseteq_union_1_L, singleton_subseteq_l, elem_of_dom. eauto.
  - destruct Hp as (-> & -> & a' & -> & Hk).
    cbn in Hstep. rewrite Hxs in Hstep. injection Hstep as <- <-.
    repeat split; try done; cbn.
    intros l' Hne. rewrite lookup_insert_ne by done. by apply Hlists.
  - destruct Hp as (-> & Hk). cbn in Hstep. by injection Hstep as <- <-.
Qed.

Lemma same_outside_schedule (l d : ref) (key0 : string) (lo K : Z) (L : nat)
    (xs0 : list text) (s : list nat) (w0 w w' : world)
    (pool pool' : list (prog unit)) :
  in_run l d key0 lo K L xs0 w pool ->
  same_outside l d w0 w ->
  run_schedule s (w, pool) = Some (w', pool') ->
  same_outside l d w0 w'.
Proof.
  revert w pool. induction s as [|i s IH]; intros w pool Hin Hsame Hrun.
  - by injection Hrun as <- <-.
  - cbn [run_schedule] in Hrun.
    destruct (sched_step i (w, pool)) as [[w1 pool1]|] eqn:Hstep; [|done].
    eapply (IH w1 pool1); [by eapply in_run_step|by eapply same_outside_step|done].
Qed.

(** X13. However their calls interleave, the workers change nothing but
    the list of fragments and the values of the counters: they create,
    write and close no file, write nothing on the status stream, create no
    object in the manager, touch no other list or dict, and add no key to
    the counters dict and remove none. *)
Theorem together_touch_nothing_else (l d : ref)
    (workers : list (plugin * list (option float * outcome)))
    (w w' : world) (c : Z * Z * Z * Z) (xs0 : list text) (s : list nat)
    (pool' : list (prog unit)) :
  Forall (fun pe => attached pe.1 l d) workers ->
  counters w d = Some c ->
  w_lists w !! l = Some xs0 ->
  run_schedule s (w, (fun pe => worker pe.1 pe.2) <$> workers) = Some (w', pool') ->
  w_files w' = w_files w /\ w_open w' = w_open w /\
  w_stream w' = w_stream w /\ w_next w' = w_next w /\
  (forall d', d' <> d -> w_dicts w' !! d' = w_dicts w !! d') /\
  (forall l', l' <> l -> w_lists w' !! l' = w_lists w !! l') /\
  (dom <$> w_dicts w' !! d) = (dom <$> w_dicts w !! d).
Proof.
  intros Hatt Hc Hxs Hrun.
  assert (Hkey : "errors" ∈ counter_keys) by (by repeat constructor).
  pose proof (in_run_start l d "errors" workers w c xs0 Hatt Hkey Hc Hxs) as Hin.
  assert (Hsame : same_outside l d w w) by done.
  destruct (same_outside_schedule l d "errors" _ _ _ _ s w w w' _ pool'
              Hin Hsame Hrun)
    as (Hfiles & Hopen & Hstream & Hnext & _ & Hdicts & Hlists & Hdom).
  done.
Qed.

End TogetherClaims.

(** *** The further facts on the sample tests *)




Lemma disabled_plugin_stores_nothing_witness :
  exists self',
    run_prog (configure new_plugin (Options (Some false) (u "nosetests.xml"))
                Sample.conf0) Sample.world0
      = (Sample.world0, inr (self', Sample.conf0)) /\
    run_prog (report (H:=Sample.env C_locale) self') Sample.world0
      = (Sample.world0, inl TypeError).
Proof.
  destruct (disabled_plugin_stores_nothing (H:=Sample.env C_locale)
              (Options (Some false) (u "nosetests.xml")) Sample.conf0
              Sample.world0)
    as (self' & Hconf & Hreport & _).
  - reflexivity.
  - exists self'. split; [exact Hconf|exact Hreport].
Defined.

Lemma addFailure_counts_witness :
  exists w',
    run_prog (addFailure (H:=Sample.env C_locale) Sample.self
                (Test (u "pkg.mod.test_boom"))
                (ExcInfo Sample.AssertionError (u "boom") (u "line1")))
      Sample.world1 = (w', inr tt) /\
    counters w' 1 = Some (0, 1, 0, 0)%Z.
Proof.
  destruct (addFailure_counts (H:=Sample.env C_locale) Sample.self
              (Test (u "pkg.mod.test_boom"))
              (ExcInfo Sample.AssertionError (u "boom") (u "line1"))
              Sample.world1 0 1 0 0 0 0 [] [u "pkg.mod"; u "test_boom"]
              (u "pkg.mod") (u "test_boom")
              (DateTime 1970 1 1 0 16 40 0) (DateTime 1970 1 1 0 16 40 0))
    as (w' & Hrun & Hcnt & _).
  - split; reflexivity.
  - vm_compute. reflexivity.
  - vm_compute. reflexivity.
  - vm_compute. reflexivity.
  - reflexivity.
  - reflexivity.
  - vm_compute. reflexivity.
  - vm_compute. reflexivity.
  - exists w'. split; [exact Hrun|exact Hcnt].
Defined.

Lemma addSuccess_counts_witness :
  exists w',
    run_prog (addSuccess (H:=Sample.env C_locale) Sample.self
                (Test (u "pkg.mod.test_ok")))
      Sample.world1 = (w', inr tt) /\
    counters w' 1 = Some (0, 0, 1, 0)%Z.
Proof.
  destruct (addSuccess_counts (H:=Sample.env C_locale) Sample.self
              (Test (u "pkg.mod.test_ok")) Sample.world1 0 1 0 0 0 0 []
              [u "pkg.mod"; u "test_ok"] (u "pkg.mod") (u "test_ok")
              (DateTime 1970 1 1 0 16 40 0) (DateTime 1970 1 1 0 16 40 0))
    as (w' & Hrun & Hcnt & _).
  - split; reflexivity.
  - vm_compute. reflexivity.
  - vm_compute. reflexivity.
  - vm_compute. reflexivity.
  - reflexivity.
  - reflexivity.
  - vm_compute. reflexivity.
  - vm_compute. reflexivity.
  - exists w'. split; [exact Hrun|exact Hcnt].
Defined.

Lemma handle_raises_after_increment_witness :
  exists w',
    run_prog (handle (H:=Sample.env C_locale) Sample.self
                (None, Success (Test (u "test(1)"))))
      Sample.world1 = (w', inl ValueError) /\
    counters w' 1 = Some (0, 0, 1, 0)%Z /\
    w_lists w' !! 0 = Some [].
Proof.
  destruct (handle_raises_after_increment (H:=Sample.env C_locale) Sample.self
              (None, Success (Test (u "test(1)")))
              Sample.world1 0 1 0 0 0 0 [] ValueError)
    as (w' & Hrun & Hcnt & Hl & _).
  - split; reflexivity.
  - vm_compute. reflexivity.
  - vm_compute. reflexivity.
  - vm_compute. reflexivity.
  - exists w'. split; [exact Hrun|]. split; [exact Hcnt|].
    rewrite Hl. vm_compute. reflexivity.
Defined.

Lemma worker_alone_counts_witness :
  exists w' c',
    run_prog (worker (H:=Sample.env C_locale) Sample.self Sample.events)
      Sample.world1 = (w', inr tt) /\
    counters w' 1 = Some c' /\ total c' = 3%Z.
Proof.
  destruct (worker_alone_counts (H:=Sample.env C_locale) Sample.self
              Sample.events Sample.world1 0 1 (0, 0, 0, 0)%Z []
              (fragments Sample.world2 0))
    as (w' & c' & Hrun & Hcnt & _ & Htotal & _).
  - split; reflexivity.
  - vm_compute. reflexivity.
  - vm_compute. reflexivity.
  - vm_compute. reflexivity.
  - exists w', c'. split; [exact Hrun|]. split; [exact Hcnt|exact Htotal].
Defined.



Lemma sample_race :
  exists w',
    run_schedule SampleRun.schedule
      (Sample.world1,
       (fun pe => worker (H:=Sample.env C_locale) pe.1 pe.2) <$> SampleRun.workers)
      = Some (w', [Ret tt; Ret tt]).
Proof. eexists. vm_compute. reflexivity. Defined.

Lemma together_no_fragment_lost_witness :
  exists w' xs', w_lists w' !! 0 = Some xs' /\ length xs' = 2.
Proof.
  destruct sample_race as (w' & Hrun).
  destruct (together_no_fragment_lost (H:=Sample.env C_locale) 0 1
              SampleRun.workers Sample.world1 w' (0, 0, 0, 0)%Z []
              SampleRun.schedule [Ret tt; Ret tt])
    as (xs' & Hxs' & _ & _ & Hret); [| | |exact Hrun|].
  - repeat constructor.
  - vm_compute. reflexivity.
  - vm_compute. reflexivity.
  - exists w', xs'. split; [exact Hxs'|]. apply Hret. by repeat constructor.
Defined.

Lemma together_counter_bounds_witness :
  exists w' c',
    counters w' 1 = Some c' /\
    (0 < Together.counter_of c' "passes" <= 2)%Z.
Proof.
  destruct sample_race as (w' & Hrun).
  destruct (together_counter_bounds (H:=Sample.env C_locale) 0 1
              SampleRun.workers Sample.world1 w' (0, 0, 0, 0)%Z []
              SampleRun.schedule [Ret tt; Ret tt])
    as (c' & Hc' & Hkeys); [| | |exact Hrun|].
  - repeat constructor.
  - vm_compute. reflexivity.
  - vm_compute. reflexivity.
  - exists w', c'. split; [exact Hc'|].
    destruct (Hkeys "passes") as [Hb Hlo]; [by repeat constructor|].
    assert (Hret : Forall (fun p : prog unit => p = Ret tt) [Ret tt; Ret tt])
      by (by repeat constructor).
    specialize (Hlo Hret).
    assert (Hn : sum_list_with (fun pe => Together.count_key "passes" pe.2)
                   SampleRun.workers = 2) by (vm_compute; reflexivity).
    assert (Hz : Together.counter_of (0, 0, 0, 0)%Z "passes" = 0%Z)
      by (vm_compute; reflexivity).
    rewrite Hn, Hz in Hb, Hlo. split; [apply Hlo; lia|apply Hb].
Defined.

Lemma together_touch_nothing_else_witness :
  exists w', w_files w' = w_files Sample.world1 /\ w_next w' = 2.
Proof.
  destruct sample_race as (w' & Hrun).
  destruct (together_touch_nothing_else (H:=Sample.env C_locale) 0 1
              SampleRun.workers Sample.world1 w' (0, 0, 0, 0)%Z []
              SampleRun.schedule [Ret tt; Ret tt])
    as (Hfiles & _ & _ & Hnext & _); [| | |exact Hrun|].
  - repeat constructor.
  - vm_compute. reflexivity.
  - vm_compute. reflexivity.
  - exists w'. split; [exact Hfiles|exact Hnext].
Defined.


Lemma every_run_keeps_store_witness :
  exists w' c xs, counters w' 1 = Some c /\ w_lists w' !! 0 = Some xs.
Proof.
  destruct sample_race as (w' & Hrun).
  destruct (every_run_keeps_store (H:=Sample.env C_locale) Sample.conf0
              Sample.opts Sample.world0 Sample.world1 w' Sample.self
              Sample.conf1 SampleRun.workers SampleRun.schedule [Ret tt; Ret tt])
    as (l & d & c & xs & [Hl Hd] & Hc & Hxs); [| | |exact Hrun|].
  - reflexivity.
  - reflexivity.
  - reflexivity.
  - injection Hl as <-. injection Hd as <-. exists w', c, xs.
    split; [exact Hc|exact Hxs].
Defined.
